(** * fhirstarter.routing: classification of FHIR REST requests

    A shallow embedding of [fhirstarter/routing.py].  The module
    classifies an HTTP request (method and URL path) as one of the FHIR
    interactions by trying eight path matchers in a fixed order; every
    matcher checks the method and then runs a regular expression with
    [re.match] on the path.

    The embedding has three layers:
    - the fragment of Python's [re] that the nine patterns use, as a
      backtracking matcher with named groups ([exec], [re_match]);
    - [InteractionInfo], [from_match] and the eight matchers;
    - [parse_fhir_request], the dispatch loop.

    [is_resource_type] lives in [fhir_specification/utils.py], outside the
    files embedded here; it is a parameter of everything below.

    Characters are [ascii]; a Python code point above 255 behaves in every
    pattern like any character outside the classes and different from line
    feed (for instance byte 200). *)

From Stdlib Require Import String Ascii List Bool Arith Lia DecimalString.
Import ListNotations.
Open Scope string_scope.

(* ================================================================= *)
(** * Strings *)

Definition LF : ascii := "010"%char.
Definition slash : ascii := "/"%char.

Fixpoint all_chars (f : ascii -> bool) (s : string) : bool :=
  match s with
  | EmptyString => true
  | String c s' => f c && all_chars f s'
  end.

Fixpoint count_char (c : ascii) (s : string) : nat :=
  match s with
  | EmptyString => 0
  | String d s' => (if Ascii.eqb c d then 1 else 0) + count_char c s'
  end.

Fixpoint take (n : nat) (s : string) : string :=
  match n, s with
  | S n', String c s' => String c (take n' s')
  | _, _ => EmptyString
  end.

Fixpoint last_char (s : string) : option ascii :=
  match s with
  | EmptyString => None
  | String c EmptyString => Some c
  | String _ s' => last_char s'
  end.

(** [s.startswith(l)], returning what follows [l]. *)
Fixpoint strip_prefix (l s : string) : option string :=
  match l, s with
  | EmptyString, _ => Some s
  | String a l', String b s' => if Ascii.eqb a b then strip_prefix l' s' else None
  | String _ _, EmptyString => None
  end.

(** [c * n] for a one-character string [c]. *)
Fixpoint replicate (n : nat) (c : ascii) : string :=
  match n with
  | 0 => EmptyString
  | S n' => String c (replicate n' c)
  end.

(** No character of [s] is a line feed. *)
Definition no_line_feed (s : string) : bool :=
  all_chars (fun c => negb (Ascii.eqb c LF)) s.

(* ================================================================= *)
(** * The fragment of Python's [re] used by the patterns *)

(** Members of a bracketed class: [a-b] or a single (possibly escaped)
    character. *)
Inductive class_item : Type :=
| Range (lo hi : ascii)
| Single (c : ascii).

(** What one repetition step can consume: [.] (no DOTALL flag, so anything
    but a line feed) or a bracketed class. *)
Inductive charset : Type :=
| Dot
| Class (items : list class_item).

Definition in_item (c : ascii) (i : class_item) : bool :=
  match i with
  | Range lo hi =>
      (nat_of_ascii lo <=? nat_of_ascii c)%nat && (nat_of_ascii c <=? nat_of_ascii hi)%nat
  | Single d => Ascii.eqb c d
  end.

Definition in_charset (cs : charset) (c : ascii) : bool :=
  match cs with
  | Dot => negb (Ascii.eqb c LF)
  | Class items => existsb (in_item c) items
  end.

(** Pattern syntax.  Every quantifier in [routing.py] is applied to a single
    character set, so repetitions carry a [charset]. *)
Inductive regex : Type :=
| Str (l : string)                                   (* literal text *)
| MinStar (cs : charset)                             (* cs*?  (lazy) *)
| MaxRepeat (cs : charset) (lo : nat) (hi : option nat)
                                                     (* cs* , cs{lo,hi} (greedy) *)
| Named (name : string) (r : regex)                  (* (?P<name>r) *)
| Cat (r1 r2 : regex)                                (* r1r2 *)
| Eos.                                               (* $ *)

Declare Scope regex_scope.
Delimit Scope regex_scope with re.
Bind Scope regex_scope with regex.
Infix "+>" := Cat (at level 60, right associativity) : regex_scope.

(** [match.groupdict()]: the named groups with the text they matched; the
    binding nearest the head is the current one. *)
Definition groupdict := list (string * string).

Fixpoint get (key : string) (d : groupdict) : option string :=
  match d with
  | [] => None
  | (k, v) :: d' => if String.eqb key k then Some v else get key d'
  end.

(** [$] without MULTILINE: at the end of the string, or just before a line
    feed that is the last character. *)
Definition at_end (s : string) : bool :=
  match s with
  | EmptyString => true
  | String c EmptyString => Ascii.eqb c LF
  | _ => false
  end.

Section Backtracking.
Context {A : Type}.

(** Lazy star: try the continuation first, consume one more character only
    when it fails. *)
Fixpoint min_repeat (cs : charset) (s : string) (k : string -> option A)
  : option A :=
  match k s with
  | Some r => Some r
  | None =>
      match s with
      | String c s' => if in_charset cs c then min_repeat cs s' k else None
      | EmptyString => None
      end
  end.

Definition below (hi : option nat) : bool :=
  match hi with
  | Some 0 => false
  | _ => true
  end.

Definition dec_hi (hi : option nat) : option nat := option_map pred hi.

(** Greedy repetition between [lo] and [hi] times ([None]: unbounded):
    consume as much as possible, give characters back one at a time while
    the continuation fails. *)
Fixpoint max_repeat (cs : charset) (lo : nat) (hi : option nat)
         (s : string) (k : string -> option A) : option A :=
  let stop := if (lo =? 0)%nat then k s else None in
  match s with
  | String c s' =>
      if in_charset cs c && below hi then
        match max_repeat cs (pred lo) (dec_hi hi) s' k with
        | Some r => Some r
        | None => stop
        end
      else stop
  | EmptyString => stop
  end.

(** The matcher proper, in continuation-passing style: [k] is what remains
    of the pattern.  Returning [None] is a failure to which the enclosing
    alternative backtracks. *)
Fixpoint exec (r : regex) (s : string) (g : groupdict)
         (k : string -> groupdict -> option A) : option A :=
  match r with
  | Str l =>
      match strip_prefix l s with
      | Some s' => k s' g
      | None => None
      end
  | MinStar cs => min_repeat cs s (fun s' => k s' g)
  | MaxRepeat cs lo hi => max_repeat cs lo hi s (fun s' => k s' g)
  | Named name r' =>
      exec r' s g
        (fun s' g' =>
           k s' ((name, take (String.length s - String.length s') s) :: g'))
  | Cat r1 r2 => exec r1 s g (fun s' g' => exec r2 s' g' k)
  | Eos => if at_end s then k s g else None
  end.
End Backtracking.

(** [pattern.match(s)]: anchored at the start of [s], free at the end; the
    result is the group dictionary of the first successful path. *)
Definition re_match (r : regex) (s : string) : option groupdict :=
  exec r s [] (fun _ g => Some g).

(* ================================================================= *)
(** * The patterns of [routing.py] *)

(** [[A-z]]: the code points 65..122. *)
Definition cls_A_z : charset := Class [Range "A" "z"].

(** [[A-Za-z0-9\-\.]] *)
Definition cls_id : charset :=
  Class [Range "A" "Z"; Range "a" "z"; Range "0" "9"; Single "-"; Single "."].

Definition g_resource_type : regex := Named "resource_type" (MaxRepeat cls_A_z 0 None).
Definition g_resource_id : regex := Named "resource_id" (MaxRepeat cls_id 1 (Some 64)).
Definition g_version_id : regex := Named "version_id" (MaxRepeat cls_id 1 (Some 64)).

Definition _METADATA_PATH_REGEX : regex :=
  (MinStar Dot +> Str "/metadata")%re.

Definition _READ_PATH_REGEX : regex :=
  (MinStar Dot +> Str "/" +> g_resource_type +> Str "/" +> g_resource_id +> Eos)%re.

Definition _VREAD_PATH_REGEX : regex :=
  (MinStar Dot +> Str "/" +> g_resource_type +> Str "/" +> g_resource_id +>
   Str "/_history/" +> g_version_id +> Eos)%re.

Definition _CREATE_PATH_REGEX : regex :=
  (MinStar Dot +> Str "/" +> g_resource_type +> Eos)%re.

Definition _SEARCH_TYPE_GET_PATH_REGEX : regex :=
  (MinStar Dot +> Str "/" +> g_resource_type +> Eos)%re.

Definition _SEARCH_TYPE_POST_PATH_REGEX : regex :=
  (MinStar Dot +> Str "/" +> g_resource_type +> Str "/_search" +> Eos)%re.

Definition _UPDATE_PATH_REGEX : regex :=
  (MinStar Dot +> Str "/" +> g_resource_type +> Str "/" +> g_resource_id +> Eos)%re.

Definition _PATCH_PATH_REGEX : regex :=
  (MinStar Dot +> Str "/" +> g_resource_type +> Str "/" +> g_resource_id +> Eos)%re.

Definition _DELETE_PATH_REGEX : regex :=
  (MinStar Dot +> Str "/" +> g_resource_type +> Str "/" +> g_resource_id +> Eos)%re.

(** The patterns printed back in Python's syntax, to be compared with the
    literals of [routing.py]. *)
Definition show_nat (n : nat) : string := NilEmpty.string_of_uint (Nat.to_uint n).

Definition show_item (i : class_item) : string :=
  match i with
  | Range lo hi => String lo (String "-" (String hi EmptyString))
  | Single c => String "\" (String c EmptyString)
  end.

Definition show_charset (cs : charset) : string :=
  match cs with
  | Dot => "."
  | Class items => "[" ++ String.concat EmptyString (map show_item items) ++ "]"
  end.

Fixpoint show (r : regex) : string :=
  match r with
  | Str l => l
  | MinStar cs => show_charset cs ++ "*?"
  | MaxRepeat cs 0 None => show_charset cs ++ "*"
  | MaxRepeat cs lo None => show_charset cs ++ "{" ++ show_nat lo ++ ",}"
  | MaxRepeat cs lo (Some hi) =>
      show_charset cs ++ "{" ++ show_nat lo ++ "," ++ show_nat hi ++ "}"
  | Named name r' => "(?P<" ++ name ++ ">" ++ show r' ++ ")"
  | Cat r1 r2 => show r1 ++ show r2
  | Eos => "$"
  end.

(* ================================================================= *)
(** * Results and exceptions *)

Inductive InteractionType : Type :=
| create | read | vread | update | search_type | delete | capabilities | patch.

Record InteractionInfo : Type := mkInteractionInfo {
  resource_type : option string;
  interaction_type : option InteractionType;
  resource_id : option string;
  version_id : option string
}.

(** [InteractionInfo.empty()] *)
Definition empty : InteractionInfo :=
  {| resource_type := None; interaction_type := None;
     resource_id := None; version_id := None |}.

(** The exceptions the module can raise by its own statements. *)
Inductive exn : Type :=
| AssertionError (msg : string)
| NotImplementedError.

Inductive outcome (A : Type) : Type :=
| Ok (a : A)
| Raise (e : exn).
Arguments Ok {A} a.
Arguments Raise {A} e.

Definition bind {A B : Type} (m : outcome A) (f : A -> outcome B) : outcome B :=
  match m with
  | Ok a => f a
  | Raise e => Raise e
  end.

Notation "x <- m ;; f" := (bind m (fun x => f))
  (at level 61, m at next level, right associativity).

(** [assert cond, msg] *)
Definition assert (cond : bool) (msg : string) : outcome unit :=
  if cond then Ok tt else Raise (AssertionError msg).

(** The request as far as [parse_fhir_request] reads it: [request.method]
    and [request.url.path]. *)
Record Request : Type := mkRequest {
  method : string;
  url_path : string
}.

(** The interface of the matcher classes: one static method [match]. *)
Record PathMatcher : Type := mkPathMatcher {
  match_ : string -> string -> outcome (option InteractionInfo)
}.

Section Routing.

(** [fhir_specification.utils.is_resource_type], taken as a parameter. *)
Variable is_resource_type : string -> bool.

(** [InteractionInfo.from_match] *)
Definition from_match (m : option groupdict) (kind : InteractionType)
  : option InteractionInfo :=
  match m with
  | None => None
  | Some match_data =>
      let rt := get "resource_type" match_data in
      match rt with
      | Some (String _ _ as name) =>           (* a non-empty str is truthy *)
          if negb (is_resource_type name) then None
          else Some {| resource_type := rt;
                       interaction_type := Some kind;
                       resource_id := get "resource_id" match_data;
                       version_id := get "version_id" match_data |}
      | _ => None                     (* [not resource_type]: None or empty *)
      end
  end.

(** The abstract [PathMatcher.match]. *)
Definition PathMatcher_match (_method _path : string)
  : outcome (option InteractionInfo) :=
  Raise NotImplementedError.

Definition MetadataPathMatcher : PathMatcher := mkPathMatcher (fun method path =>
  if negb (method =? "GET") then Ok None
  else match re_match _METADATA_PATH_REGEX path with
       | None => Ok None
       | Some _ =>
           Ok (Some {| resource_type := None;
                       interaction_type := Some capabilities;
                       resource_id := None;
                       version_id := None |})
       end).

Definition CreatePathMatcher : PathMatcher := mkPathMatcher (fun method path =>
  if negb (method =? "POST") then Ok None
  else Ok (from_match (re_match _CREATE_PATH_REGEX path) create)).

Definition ReadPathMatcher : PathMatcher := mkPathMatcher (fun method path =>
  if negb (method =? "GET") then Ok None
  else Ok (from_match (re_match _READ_PATH_REGEX path) read)).

Definition VReadPathMatcher : PathMatcher := mkPathMatcher (fun method path =>
  if negb (method =? "GET") then Ok None
  else Ok (from_match (re_match _VREAD_PATH_REGEX path) vread)).

Definition SearchPathMatcher : PathMatcher := mkPathMatcher (fun method path =>
  if negb (existsb (String.eqb method) ["GET"; "POST"]) then Ok None
  else if method =? "GET" then
    Ok (from_match (re_match _SEARCH_TYPE_GET_PATH_REGEX path) search_type)
  else
    _ <- assert (method =? "POST") "Method should be POST" ;;
    Ok (from_match (re_match _SEARCH_TYPE_POST_PATH_REGEX path) search_type)).

Definition UpdatePathMatcher : PathMatcher := mkPathMatcher (fun method path =>
  if negb (method =? "PUT") then Ok None
  else Ok (from_match (re_match _UPDATE_PATH_REGEX path) update)).

Definition PatchPathMatcher : PathMatcher := mkPathMatcher (fun method path =>
  if negb (method =? "PATCH") then Ok None
  else Ok (from_match (re_match _PATCH_PATH_REGEX path) patch)).

Definition DeletePathMatcher : PathMatcher := mkPathMatcher (fun method path =>
  if negb (method =? "DELETE") then Ok None
  else Ok (from_match (re_match _DELETE_PATH_REGEX path) delete)).

Definition matchers : list PathMatcher :=
  [ MetadataPathMatcher;
    ReadPathMatcher;
    VReadPathMatcher;
    CreatePathMatcher;
    SearchPathMatcher;
    UpdatePathMatcher;
    PatchPathMatcher;
    DeletePathMatcher ].

(** The [for matcher in matchers] loop: the first result that is not
    [None] is returned, [InteractionInfo.empty()] after the last matcher.
    An [InteractionInfo] is always truthy (a dataclass without [__bool__]
    or [__len__]). *)
Fixpoint first_match (ms : list PathMatcher) (method path : string)
  : outcome InteractionInfo :=
  match ms with
  | [] => Ok empty
  | matcher :: rest =>
      m <- match_ matcher method path ;;
      match m with
      | Some info => Ok info
      | None => first_match rest method path
      end
  end.

Definition parse_fhir_request (request : option Request)
  : outcome InteractionInfo :=
  match request with
  | None => Ok empty
  | Some req => first_match matchers (method req) (url_path req)
  end.

End Routing.

(** The call [parse_fhir_request(make_request(method, path))]. *)
Definition classify (is_resource_type : string -> bool) (method path : string)
  : outcome InteractionInfo :=
  parse_fhir_request is_resource_type (Some (mkRequest method path)).

(** [a] when it is a result, [b] otherwise. *)
Definition or_else (a : option InteractionInfo) (b : InteractionInfo)
  : InteractionInfo :=
  match a with
  | Some info => info
  | None => b
  end.

(** The result of the metadata matcher. *)
Definition capabilities_info : InteractionInfo :=
  {| resource_type := None; interaction_type := Some capabilities;
     resource_id := None; version_id := None |}.

(** A segment of the identifier class, as [{1,64}] delimits it. *)
Definition id_segment (i : string) : Prop :=
  all_chars (in_charset cls_id) i = true /\ 1 <= String.length i <= 64.

(** A (possibly empty) run of [[A-z]]. *)
Definition type_segment (t : string) : Prop :=
  all_chars (in_charset cls_A_z) t = true.

(** An oracle that knows the resource types listed in [known]. *)
Definition oracle_of (known : list string) : string -> bool :=
  fun name => existsb (String.eqb name) known.

(** The oracle of the examples. *)
Definition fhir : string -> bool := oracle_of ["Patient"; "Observation"].

(* ================================================================= *)
(** * Declarative reading of the patterns *)

(** [within hi n]: [n] repetitions respect the upper bound [hi]. *)
Definition within (hi : option nat) (n : nat) : Prop :=
  match hi with
  | None => True
  | Some h => n <= h
  end.

(** [matches r a rest g g']: pattern [r] can consume exactly [a] when
    [rest] follows, turning the group dictionary [g] into [g'].  This is the
    search space of [exec]; which of the possible matches [exec] returns is
    fixed by its backtracking order. *)
Inductive matches : regex -> string -> string -> groupdict -> groupdict -> Prop :=
| M_Str l rest g :
    matches (Str l) l rest g g
| M_MinStar cs a rest g :
    all_chars (in_charset cs) a = true ->
    matches (MinStar cs) a rest g g
| M_MaxRepeat cs lo hi a rest g :
    all_chars (in_charset cs) a = true ->
    lo <= String.length a -> within hi (String.length a) ->
    matches (MaxRepeat cs lo hi) a rest g g
| M_Named name r a rest g g' :
    matches r a rest g g' ->
    matches (Named name r) a rest g ((name, a) :: g')
| M_Cat r1 r2 a1 a2 rest g g1 g2 :
    matches r1 a1 (a2 ++ rest) g g1 ->
    matches r2 a2 rest g1 g2 ->
    matches (Cat r1 r2) (a1 ++ a2) rest g g2
| M_Eos rest g :
    at_end rest = true ->
    matches Eos EmptyString rest g g.

(** No repetition of [r] can consume a slash. *)
Fixpoint slash_free (r : regex) : bool :=
  match r with
  | MinStar cs | MaxRepeat cs _ _ => negb (in_charset cs slash)
  | Named _ r' => slash_free r'
  | Cat r1 r2 => slash_free r1 && slash_free r2
  | Str _ | Eos => true
  end.

(** The slashes in the literal text of [r]. *)
Fixpoint literal_slashes (r : regex) : nat :=
  match r with
  | Str l => count_char slash l
  | Named _ r' => literal_slashes r'
  | Cat r1 r2 => literal_slashes r1 + literal_slashes r2
  | MinStar _ | MaxRepeat _ _ _ | Eos => 0
  end.

(** The last thing [r] checks is [$]. *)
Fixpoint ends_eos (r : regex) : bool :=
  match r with
  | Eos => true
  | Cat _ r2 => ends_eos r2
  | _ => false
  end.

(* ================================================================= *)
(** * Vocabulary of the statements *)

(** A line feed, as a string. *)
Definition line_feed : string := String LF EmptyString.

(** [first_line_has_metadata p]: /metadata occurs in [p] with no line feed
    before it. *)
Definition first_line_has_metadata (p : string) : Prop :=
  exists x y, p = x ++ "/metadata" ++ y /\ no_line_feed x = true.

(** The patterns whose groups can reach a result ([_UPDATE_PATH_REGEX],
    [_PATCH_PATH_REGEX] and [_DELETE_PATH_REGEX] are [_READ_PATH_REGEX],
    [_SEARCH_TYPE_GET_PATH_REGEX] is [_CREATE_PATH_REGEX]). *)
Definition capturing_patterns : list regex :=
  [ _READ_PATH_REGEX; _VREAD_PATH_REGEX; _CREATE_PATH_REGEX;
    _SEARCH_TYPE_POST_PATH_REGEX ].

(** [built_from o p r]: [r] was built by [from_match] from the groups of
    one of the capturing patterns on [p]. *)
Definition built_from (is_resource_type : string -> bool) (p : string)
           (r : InteractionInfo) : Prop :=
  exists R kind g t,
    In R capturing_patterns /\ re_match R p = Some g
    /\ get "resource_type" g = Some t
    /\ t <> EmptyString /\ is_resource_type t = true
    /\ kind <> capabilities
    /\ r = {| resource_type := Some t; interaction_type := Some kind;
              resource_id := get "resource_id" g;
              version_id := get "version_id" g |}.

(** The patterns the matchers run on a path, by method. *)
Definition consulted_patterns (m : string) : list regex :=
  if m =? "GET" then
    [_READ_PATH_REGEX; _VREAD_PATH_REGEX; _SEARCH_TYPE_GET_PATH_REGEX]
  else if m =? "POST" then [_CREATE_PATH_REGEX; _SEARCH_TYPE_POST_PATH_REGEX]
  else if m =? "PUT" then [_UPDATE_PATH_REGEX]
  else if m =? "PATCH" then [_PATCH_PATH_REGEX]
  else if m =? "DELETE" then [_DELETE_PATH_REGEX]
  else [].

(** [candidate R p t]: pattern [R] matches [p] and captures [t] as the
    resource type. *)
Definition candidate (R : regex) (p t : string) : Prop :=
  exists g, re_match R p = Some g /\ get "resource_type" g = Some t.

(** [[A-Za-z]] *)
Definition is_ascii_letter (c : ascii) : bool :=
  in_charset (Class [Range "A" "Z"; Range "a" "z"]) c.

Definition search_Patient : InteractionInfo :=
  {| resource_type := Some "Patient"; interaction_type := Some search_type;
     resource_id := None; version_id := None |}.

Definition vread_Patient_123_1 : InteractionInfo :=
  {| resource_type := Some "Patient"; interaction_type := Some vread;
     resource_id := Some "123"; version_id := Some "1" |}.

Definition read__history_1 : InteractionInfo :=
  {| resource_type := Some "_history"; interaction_type := Some read;
     resource_id := Some "1"; version_id := None |}.

Definition read_Observation_Patient : InteractionInfo :=
  {| resource_type := Some "Observation"; interaction_type := Some read;
     resource_id := Some "Patient"; version_id := None |}.

(* ================================================================= *)
(** * Segments *)

(** No character of [s] is a slash: [s] lies within one path segment. *)
Definition no_slash (s : string) : bool :=
  all_chars (fun c => negb (Ascii.eqb c slash)) s.

(** [instance_path o p t i]: [p] ends with the segments [t] and [i], up to a
    final line feed; nothing before them is a line feed; [t] is a non-empty
    run of [[A-z]] that the oracle accepts and [i] an identifier. *)
Definition instance_path (is_resource_type : string -> bool) (p t i : string)
  : Prop :=
  exists x e,
    p = x ++ "/" ++ t ++ "/" ++ i ++ e
    /\ no_line_feed x = true
    /\ type_segment t /\ t <> EmptyString /\ is_resource_type t = true
    /\ id_segment i /\ at_end e = true.

(** [version_path o p t i v]: the same with [/_history/v] after [i]. *)
Definition version_path (is_resource_type : string -> bool) (p t i v : string)
  : Prop :=
  exists x e,
    p = x ++ "/" ++ t ++ "/" ++ i ++ "/_history/" ++ v ++ e
    /\ no_line_feed x = true
    /\ type_segment t /\ t <> EmptyString /\ is_resource_type t = true
    /\ id_segment i /\ id_segment v /\ at_end e = true.

(** [type_path o suffix p t]: [p] ends with the segment [t] followed by
    the literal [suffix], up to a final line feed. *)
Definition type_path (is_resource_type : string -> bool) (suffix p t : string)
  : Prop :=
  exists x e,
    p = x ++ "/" ++ t ++ suffix ++ e
    /\ no_line_feed x = true
    /\ type_segment t /\ t <> EmptyString /\ is_resource_type t = true
    /\ at_end e = true.

(* ================================================================= *)
(** * Kinds, methods and fields *)

(** The methods under which a matcher reports each interaction type. *)
Definition methods_of (k : InteractionType) : list string :=
  match k with
  | capabilities | read | vread => ["GET"]
  | create => ["POST"]
  | search_type => ["GET"; "POST"]
  | update => ["PUT"]
  | patch => ["PATCH"]
  | delete => ["DELETE"]
  end.

(** The interaction types whose pattern has a [resource_id] group. *)
Definition instance_level (k : InteractionType) : bool :=
  match k with
  | read | vread | update | patch | delete => true
  | create | search_type | capabilities => false
  end.

Definition is_vread (k : InteractionType) : bool :=
  match k with vread => true | _ => false end.

Definition is_capabilities (k : InteractionType) : bool :=
  match k with capabilities => true | _ => false end.

(** [o is not None] *)
Definition is_set {A : Type} (o : option A) : bool :=
  match o with Some _ => true | None => false end.

(** The forms a classification takes, by method. *)
Inductive classified : string -> InteractionInfo -> Prop :=
| cl_empty m : classified m empty
| cl_capabilities : classified "GET" capabilities_info
| cl_read t i :
    classified "GET" (mkInteractionInfo (Some t) (Some read) (Some i) None)
| cl_vread t i v :
    classified "GET" (mkInteractionInfo (Some t) (Some vread) (Some i) (Some v))
| cl_search_get t :
    classified "GET" (mkInteractionInfo (Some t) (Some search_type) None None)
| cl_create t :
    classified "POST" (mkInteractionInfo (Some t) (Some create) None None)
| cl_search_post t :
    classified "POST" (mkInteractionInfo (Some t) (Some search_type) None None)
| cl_update t i :
    classified "PUT" (mkInteractionInfo (Some t) (Some update) (Some i) None)
| cl_patch t i :
    classified "PATCH" (mkInteractionInfo (Some t) (Some patch) (Some i) None)
| cl_delete t i :
    classified "DELETE" (mkInteractionInfo (Some t) (Some delete) (Some i) None).

(* ================================================================= *)
(** * [tests/test_utils.py] *)

(** One entry of [argvalues]: [(_, request_method, path, expected_result)]. *)
Record test_case : Type := mkCase {
  case_name : string;
  request_method : string;
  case_path : string;
  expected_result : InteractionInfo
}.

(** The eighteen entries of [argvalues].  Each [generate_fhir_resource_id()]
    of the source is an identifier of its own; here [id] stands for the
    [id_] of an entry and [vid] for the [vid_] of the vread entry. *)
Definition argvalues (id vid : string) : list test_case :=
  [ mkCase "capabilitites" "GET" "/metadata"
      (mkInteractionInfo None (Some capabilities) None None);
    mkCase "create" "POST" "/Patient"
      (mkInteractionInfo (Some "Patient") (Some create) None None);
    mkCase "read" "GET" ("/Patient/" ++ id)
      (mkInteractionInfo (Some "Patient") (Some read) (Some id) None);
    mkCase "vread" "GET" ("/Patient/" ++ id ++ "/_history/" ++ vid)
      (mkInteractionInfo (Some "Patient") (Some vread) (Some id) (Some vid));
    mkCase "search-type" "GET" "/Patient"
      (mkInteractionInfo (Some "Patient") (Some search_type) None None);
    mkCase "search-type post" "POST" "/Patient/_search"
      (mkInteractionInfo (Some "Patient") (Some search_type) None None);
    mkCase "update" "PUT" ("/Patient/" ++ id)
      (mkInteractionInfo (Some "Patient") (Some update) (Some id) None);
    mkCase "patch" "PATCH" ("/Patient/" ++ id)
      (mkInteractionInfo (Some "Patient") (Some patch) (Some id) None);
    mkCase "delete" "DELETE" ("/Patient/" ++ id)
      (mkInteractionInfo (Some "Patient") (Some delete) (Some id) None);
    mkCase "read unrecognized resource type" "GET" ("/FakeResource/" ++ id)
      (mkInteractionInfo None None None None);
    mkCase "search unrecognized resource type" "GET" "/FakeResource"
      (mkInteractionInfo None None None None);
    mkCase "unrecognized GET path" "GET" ("/Patient/" ++ id ++ "/extra")
      (mkInteractionInfo None None None None);
    mkCase "create unrecognized resource type" "POST" "/FakeResource"
      (mkInteractionInfo None None None None);
    mkCase "search POST unrecognized resource type" "POST" "/FakeResource/_search"
      (mkInteractionInfo None None None None);
    mkCase "unrecognized POST path" "POST" "/FakeResource/extra"
      (mkInteractionInfo None None None None);
    mkCase "update unrecognized resource type" "PUT" ("/FakeResource/" ++ id)
      (mkInteractionInfo None None None None);
    mkCase "unrecognized PUT path" "PUT" ("/FakeResource/" ++ id ++ "/extra")
      (mkInteractionInfo None None None None);
    mkCase "unsupported HTTP method" "HEAD" ("/Patient/" ++ id ++ "/extra")
      (mkInteractionInfo None None None None) ].

(** The values of the [mount_path] parameter. *)
Definition mount_paths : list string := [EmptyString; "/subapi"].

(** The assertion of [test_parse_fhir_request]. *)
Definition test_parse_fhir_request (is_resource_type : string -> bool)
           (mount_path : string) (c : test_case) : Prop :=
  classify is_resource_type (request_method c) (mount_path ++ case_path c)
  = Ok (expected_result c).

(** An identifier on which the test can be run: 1 to 64 characters of the
    identifier class, not starting with the word metadata. *)
Definition test_id (id : string) : Prop :=
  id_segment id /\ strip_prefix "metadata" id = None.

(** The slash-separated path made of the segments [segs]. *)
Fixpoint path_of (segs : list string) : string :=
  match segs with
  | [] => EmptyString
  | s :: rest => "/" ++ s ++ path_of rest
  end.

(** A segment in which the capabilities pattern finds nothing. *)
Definition plain_segment (s : string) : Prop :=
  no_slash s = true /\ no_line_feed s = true
  /\ strip_prefix "metadata" s = None.

(** What is left of the capabilities pattern after [.*?]. *)
Definition meta_k (s : string) : option groupdict :=
  match strip_prefix "/metadata" s with
  | Some _ => Some []
  | None => None
  end.

(** [whole_segment p s]: [s] is a whole segment of [p]: it holds no slash,
    follows a slash, and is followed by a slash or by the end of the path
    (possibly a final line feed). *)
Definition whole_segment (p s : string) : Prop :=
  exists a b,
    p = a ++ "/" ++ s ++ b
    /\ no_slash s = true
    /\ (at_end b = true \/ exists b', b = String slash b').

(** [fields_from o p r]: the fields of [r] that are set are whole segments
    of [p] of the right class. *)
Definition fields_from (o : string -> bool) (p : string) (r : InteractionInfo)
  : Prop :=
  (forall t, resource_type r = Some t ->
     whole_segment p t /\ type_segment t /\ t <> EmptyString /\ o t = true)
  /\ (forall i, resource_id r = Some i -> whole_segment p i /\ id_segment i)
  /\ (forall v, version_id r = Some v -> whole_segment p v /\ id_segment v).

(* ================================================================= *)
(** * The patterns are the ones of the source *)

Example source_METADATA : show _METADATA_PATH_REGEX = ".*?/metadata".
Proof. reflexivity. Qed.

Example source_READ :
  show _READ_PATH_REGEX
  = ".*?/(?P<resource_type>[A-z]*)/(?P<resource_id>[A-Za-z0-9\-\.]{1,64})$".
Proof. reflexivity. Qed.

Example source_VREAD :
  show _VREAD_PATH_REGEX
  = ".*?/(?P<resource_type>[A-z]*)/(?P<resource_id>[A-Za-z0-9\-\.]{1,64})/_history/(?P<version_id>[A-Za-z0-9\-\.]{1,64})$".
Proof. reflexivity. Qed.

Example source_CREATE_SEARCH_GET :
  show _CREATE_PATH_REGEX = ".*?/(?P<resource_type>[A-z]*)$"
  /\ show _SEARCH_TYPE_GET_PATH_REGEX = ".*?/(?P<resource_type>[A-z]*)$".
Proof. split; reflexivity. Qed.

Example source_SEARCH_POST :
  show _SEARCH_TYPE_POST_PATH_REGEX = ".*?/(?P<resource_type>[A-z]*)/_search$".
Proof. reflexivity. Qed.

Example source_UPDATE_PATCH_DELETE :
  show _UPDATE_PATH_REGEX = show _READ_PATH_REGEX
  /\ show _PATCH_PATH_REGEX = show _READ_PATH_REGEX
  /\ show _DELETE_PATH_REGEX = show _READ_PATH_REGEX.
Proof. repeat split; reflexivity. Qed.

(* ================================================================= *)
(** * The scenarios of [tests/test_utils.py] *)

Example test_capabilities :
  classify fhir "GET" "/metadata" = Ok (mkInteractionInfo None (Some capabilities) None None).
Proof. reflexivity. Qed.

Example test_create :
  classify fhir "POST" "/subapi/Patient" = Ok (mkInteractionInfo (Some "Patient") (Some create) None None).
Proof. reflexivity. Qed.

Example test_read :
  classify fhir "GET" "/Patient/a1b2-c3" = Ok (mkInteractionInfo (Some "Patient") (Some read) (Some "a1b2-c3") None).
Proof. reflexivity. Qed.

Example test_vread :
  classify fhir "GET" "/subapi/Patient/a1/_history/v.2"
  = Ok (mkInteractionInfo (Some "Patient") (Some vread) (Some "a1") (Some "v.2")).
Proof. reflexivity. Qed.

Example test_search_get :
  classify fhir "GET" "/Patient" = Ok (mkInteractionInfo (Some "Patient") (Some search_type) None None).
Proof. reflexivity. Qed.

Example test_search_post :
  classify fhir "POST" "/Patient/_search" = Ok (mkInteractionInfo (Some "Patient") (Some search_type) None None).
Proof. reflexivity. Qed.

Example test_update_patch_delete :
  classify fhir "PUT" "/Patient/7" = Ok (mkInteractionInfo (Some "Patient") (Some update) (Some "7") None)
  /\ classify fhir "PATCH" "/Patient/7" = Ok (mkInteractionInfo (Some "Patient") (Some patch) (Some "7") None)
  /\ classify fhir "DELETE" "/Patient/7" = Ok (mkInteractionInfo (Some "Patient") (Some delete) (Some "7") None).
Proof. repeat split; reflexivity. Qed.

Example test_unrecognized :
  classify fhir "GET" "/FakeResource/7" = Ok empty
  /\ classify fhir "GET" "/FakeResource" = Ok empty
  /\ classify fhir "GET" "/Patient/7/extra" = Ok empty
  /\ classify fhir "POST" "/FakeResource/extra" = Ok empty
  /\ classify fhir "PUT" "/FakeResource/7/extra" = Ok empty
  /\ classify fhir "HEAD" "/Patient/7/extra" = Ok empty.
Proof. repeat split; reflexivity. Qed.

(** Edges of the patterns: the bounds of [{1,64}], [$] before a final line
    feed, [.] stopping at a line feed, [[A-z]] taking an underscore. *)
Example LF_code : nat_of_ascii LF = 10.
Proof. reflexivity. Qed.

Example edge_id_64 :
  re_match _READ_PATH_REGEX ("/Patient/" ++ replicate 64 "a")
  = Some [("resource_id", replicate 64 "a"); ("resource_type", "Patient")].
Proof. reflexivity. Qed.

Example edge_id_65 :
  re_match _READ_PATH_REGEX ("/Patient/" ++ replicate 65 "a") = None.
Proof. reflexivity. Qed.

Example edge_final_line_feed :
  re_match _READ_PATH_REGEX ("/Patient/1" ++ line_feed)
  = Some [("resource_id", "1"); ("resource_type", "Patient")]
  /\ re_match _READ_PATH_REGEX ("/Patient/1" ++ line_feed ++ line_feed) = None.
Proof. split; reflexivity. Qed.

Example edge_dot_line_feed :
  re_match _READ_PATH_REGEX ("/a" ++ line_feed ++ "/Patient/1") = None
  /\ re_match _METADATA_PATH_REGEX (line_feed ++ "/metadata") = None.
Proof. split; reflexivity. Qed.

Example edge_underscore :
  re_match _CREATE_PATH_REGEX "/Patient/_search"
  = Some [("resource_type", "_search")].
Proof. reflexivity. Qed.

(* ================================================================= *)
(** * Facts about strings *)

Lemma append_nil_r (s : string) : s ++ EmptyString = s.
Proof. induction s; simpl; congruence. Qed.

Lemma append_assoc (a b c : string) : (a ++ b) ++ c = a ++ (b ++ c).
Proof. induction a; simpl; congruence. Qed.

Lemma length_append (a b : string) :
  String.length (a ++ b) = String.length a + String.length b.
Proof. induction a; simpl; congruence. Qed.

Lemma take_app (a b : string) : take (String.length a) (a ++ b) = a.
Proof. induction a; simpl; [destruct b; reflexivity | congruence]. Qed.

Lemma take_consumed (a b : string) :
  take (String.length (a ++ b) - String.length b) (a ++ b) = a.
Proof.
  rewrite length_append.
  replace (String.length a + String.length b - String.length b)
    with (String.length a) by lia.
  apply take_app.
Qed.

Lemma all_chars_app f (a b : string) :
  all_chars f (a ++ b) = all_chars f a && all_chars f b.
Proof. induction a; simpl; [reflexivity | rewrite IHa; apply andb_assoc]. Qed.

Lemma all_chars_impl (f h : ascii -> bool) (s : string) :
  (forall c, f c = true -> h c = true) ->
  all_chars f s = true -> all_chars h s = true.
Proof.
  intros Hfh; induction s as [|c s IH]; simpl; [reflexivity |].
  rewrite !andb_true_iff; intros [Hc Hs]; auto.
Qed.

Lemma count_char_app c (a b : string) :
  count_char c (a ++ b) = count_char c a + count_char c b.
Proof. induction a; simpl; [reflexivity | rewrite IHa; lia]. Qed.

Lemma count_char_absent f c (s : string) :
  f c = false -> all_chars f s = true -> count_char c s = 0.
Proof.
  intros Hc; induction s as [|d s IH]; simpl; [reflexivity |].
  rewrite andb_true_iff; intros [Hd Hs].
  destruct (Ascii.eqb_spec c d) as [->|_]; [congruence | auto].
Qed.

Lemma last_char_app (a b : string) :
  last_char (a ++ b)
  = match b with EmptyString => last_char a | _ => last_char b end.
Proof.
  induction a as [|c a IH]; simpl.
  - destruct b; reflexivity.
  - rewrite IH.
    destruct a; simpl; destruct b; reflexivity.
Qed.

Lemma last_char_all f (s : string) c :
  all_chars f s = true -> last_char s = Some c -> f c = true.
Proof.
  induction s as [|d s IH]; simpl; [discriminate |].
  rewrite andb_true_iff; intros [Hd Hs].
  destruct s; [intros [= <-]; exact Hd | auto].
Qed.

Lemma strip_prefix_app (l s : string) : strip_prefix l (l ++ s) = Some s.
Proof. induction l; simpl; [reflexivity | rewrite Ascii.eqb_refl; exact IHl]. Qed.

Lemma strip_prefix_sound (l s s' : string) :
  strip_prefix l s = Some s' -> s = l ++ s'.
Proof.
  revert s; induction l as [|a l IH]; intros [|b s]; simpl; try congruence.
  destruct (Ascii.eqb_spec a b) as [->|_]; [|discriminate].
  intros H; f_equal; auto.
Qed.

Lemma at_end_cases (s : string) :
  at_end s = true -> s = EmptyString \/ s = String LF EmptyString.
Proof.
  destruct s as [|c [|d s]]; simpl; auto; [|discriminate].
  destruct (Ascii.eqb_spec c LF) as [->|_]; [auto | discriminate].
Qed.

(* ================================================================= *)
(** * What a successful match says about the subject *)

Section Soundness.
Context {A : Type}.

Lemma min_repeat_sound cs (k : string -> option A) s r :
  min_repeat cs s k = Some r ->
  exists a rest, s = a ++ rest
    /\ all_chars (in_charset cs) a = true /\ k rest = Some r.
Proof.
  induction s as [|c s IH]; simpl.
  - destruct (k EmptyString) eqn:E; [|discriminate].
    intros [= <-]. exists EmptyString, EmptyString; auto.
  - destruct (k (String c s)) eqn:E.
    + intros [= <-]. exists EmptyString, (String c s); auto.
    + destruct (in_charset cs c) eqn:Hc; [|discriminate].
      intros H; destruct (IH H) as (a & rest & -> & Ha & Hk).
      exists (String c a), rest; simpl; rewrite Hc; auto.
Qed.

Lemma max_repeat_sound cs (k : string -> option A) s :
  forall lo hi r,
  max_repeat cs lo hi s k = Some r ->
  exists a rest, s = a ++ rest
    /\ all_chars (in_charset cs) a = true
    /\ lo <= String.length a /\ within hi (String.length a)
    /\ k rest = Some r.
Proof.
  assert (Hstop : forall lo hi s0 r,
             (if (lo =? 0)%nat then k s0 else None) = Some r ->
             exists a rest, s0 = a ++ rest
               /\ all_chars (in_charset cs) a = true
               /\ lo <= String.length a /\ within hi (String.length a)
               /\ k rest = Some r).
  { intros lo hi s0 r H. destruct (Nat.eqb_spec lo 0) as [->|_]; [|discriminate].
    exists EmptyString, s0; simpl; repeat split; auto.
    destruct hi; simpl; lia. }
  induction s as [|c s IH]; intros lo hi r; simpl; [apply Hstop |].
  destruct (in_charset cs c && below hi) eqn:Hc; [|apply Hstop].
  destruct (max_repeat cs (pred lo) (dec_hi hi) s k) as [r0|] eqn:E; [|apply Hstop].
  intros [= <-].
  apply andb_true_iff in Hc as [Hc Hb].
  destruct (IH _ _ _ E) as (a & rest & -> & Ha & Hlo & Hhi & Hk).
  exists (String c a), rest; simpl; rewrite Hc; repeat split; auto; [lia |].
  destruct hi as [[|h]|]; simpl in *; try discriminate; auto; lia.
Qed.

Lemma exec_sound r :
  forall s g (k : string -> groupdict -> option A) res,
  exec r s g k = Some res ->
  exists a rest g', s = a ++ rest
    /\ matches r a rest g g' /\ k rest g' = Some res.
Proof.
  induction r as [l|cs|cs lo hi|name r IH|r1 IH1 r2 IH2|]; intros s g k res; simpl.
  - destruct (strip_prefix l s) as [s'|] eqn:E; [|discriminate].
    intros Hk. exists l, s', g. apply strip_prefix_sound in E.
    repeat split; auto. constructor.
  - intros H. apply min_repeat_sound in H as (a & rest & -> & Ha & Hk).
    exists a, rest, g; repeat split; auto. constructor; auto.
  - intros H. apply max_repeat_sound in H as (a & rest & -> & Ha & Hlo & Hhi & Hk).
    exists a, rest, g; repeat split; auto. constructor; auto.
  - intros H. apply IH in H as (a & rest & g' & -> & Hm & Hk).
    rewrite take_consumed in Hk.
    exists a, rest, ((name, a) :: g'); repeat split; auto. constructor; auto.
  - intros H. apply IH1 in H as (a1 & rest1 & g1 & -> & Hm1 & H).
    apply IH2 in H as (a2 & rest & g2 & -> & Hm2 & Hk).
    exists (a1 ++ a2), rest, g2. rewrite append_assoc.
    repeat split; auto. econstructor; eauto.
  - destruct (at_end s) eqn:E; [|discriminate].
    intros Hk. exists EmptyString, s, g; repeat split; auto. constructor; auto.
Qed.
End Soundness.

Lemma re_match_sound r s g :
  re_match r s = Some g ->
  exists a rest, s = a ++ rest /\ matches r a rest [] g.
Proof.
  unfold re_match; intros H.
  apply exec_sound in H as (a & rest & g' & -> & Hm & [= <-]).
  eauto.
Qed.

(** The converse, as far as success goes: whenever the subject has a match
    at all, the backtracking search finds one (possibly another). *)
Section Completeness.
Context {A : Type}.

Lemma min_repeat_complete cs (k : string -> option A) a rest r :
  all_chars (in_charset cs) a = true ->
  k rest = Some r ->
  exists r', min_repeat cs (a ++ rest) k = Some r'.
Proof.
  intros Ha Hk; induction a as [|c a IH]; simpl in *.
  - destruct rest; simpl; rewrite Hk; eauto.
  - apply andb_true_iff in Ha as [Hc Ha].
    destruct (k (String c (a ++ rest))); [eauto |].
    rewrite Hc; auto.
Qed.

Lemma max_repeat_complete cs (k : string -> option A) a rest r :
  forall lo hi,
  all_chars (in_charset cs) a = true ->
  lo <= String.length a -> within hi (String.length a) ->
  k rest = Some r ->
  exists r', max_repeat cs lo hi (a ++ rest) k = Some r'.
Proof.
  induction a as [|c a IH]; intros lo hi Ha Hlo Hhi Hk; simpl in *.
  - assert (lo = 0) as -> by lia.
    destruct rest as [|c rest]; simpl; [eauto |].
    destruct (in_charset cs c && below hi); [|eauto].
    destruct (max_repeat cs 0 (dec_hi hi) rest k); eauto.
  - apply andb_true_iff in Ha as [Hc Ha]. rewrite Hc.
    assert (Hb : below hi = true) by (destruct hi as [[|h]|]; simpl in *; auto; lia).
    rewrite Hb; simpl.
    destruct (IH (pred lo) (dec_hi hi)) as [r' Hr']; auto; [lia | |].
    + destruct hi as [h|]; simpl in *; auto; lia.
    + rewrite Hr'; eauto.
Qed.

Lemma exec_complete r a rest g g' :
  matches r a rest g g' ->
  forall (k : string -> groupdict -> option A) res,
  k rest g' = Some res ->
  exists res', exec r (a ++ rest) g k = Some res'.
Proof.
  induction 1 as [l rest g|cs a rest g Ha|cs lo hi a rest g Ha Hlo Hhi
                 |name r a rest g g' _ IH
                 |r1 r2 a1 a2 rest g g1 g2 _ IH1 _ IH2|rest g He];
    intros k res Hk; simpl.
  - rewrite strip_prefix_app; eauto.
  - eapply min_repeat_complete; eauto.
  - eapply max_repeat_complete; eauto.
  - eapply IH. rewrite take_consumed. eauto.
  - rewrite append_assoc.
    destruct (IH2 _ _ Hk) as [res2 H2].
    eapply IH1; eauto.
  - rewrite He; eauto.
Qed.
End Completeness.

Lemma re_match_complete r a rest g :
  matches r a rest [] g ->
  exists g', re_match r (a ++ rest) = Some g'.
Proof. intros H; eapply exec_complete; eauto. Qed.

(* ================================================================= *)
(** * Slashes: why the lazy prefix cannot change a match *)

Lemma matches_slashes r a rest g g' :
  matches r a rest g g' ->
  slash_free r = true ->
  count_char slash a = literal_slashes r.
Proof.
  induction 1; simpl; intros Hf; auto.
  - eapply count_char_absent; eauto. now apply negb_true_iff.
  - eapply count_char_absent; eauto. now apply negb_true_iff.
  - apply andb_true_iff in Hf as [H1 H2].
    rewrite count_char_app; auto.
Qed.

Lemma matches_ends r a rest g g' :
  matches r a rest g g' -> ends_eos r = true -> at_end rest = true.
Proof. induction 1; simpl; intros He; try discriminate; auto. Qed.

Lemma at_end_no_slash (s : string) : at_end s = true -> count_char slash s = 0.
Proof. intros H; destruct (at_end_cases _ H) as [-> | ->]; reflexivity. Qed.

Section LazyPrefix.
Context {A : Type}.
Variable K : string -> option A.
Variable n : nat.

(** Whatever [K] accepts starts with a slash and holds [n] slashes. *)
Hypothesis K_slashes : forall s r,
  K s = Some r ->
  (exists s', s = String slash s') /\ count_char slash s = n.

Lemma min_repeat_slashes p r :
  min_repeat Dot p K = Some r -> n <= count_char slash p.
Proof.
  intros H. apply min_repeat_sound in H as (a & rest & -> & _ & Hk).
  apply K_slashes in Hk as [_ <-]. rewrite count_char_app. lia.
Qed.

Lemma min_repeat_prefix x p r :
  no_line_feed x = true ->
  min_repeat Dot p K = Some r ->
  min_repeat Dot (x ++ p) K = Some r.
Proof.
  intros Hx Hp. induction x as [|c x IH]; simpl in *; [exact Hp |].
  apply andb_true_iff in Hx as [Hc Hx].
  specialize (IH Hx).
  destruct (K (String c (x ++ p))) as [r'|] eqn:E.
  - exfalso.
    apply K_slashes in E as [[s' Hs'] Hn].
    injection Hs' as -> _. simpl in Hn.
    apply min_repeat_slashes in IH. lia.
  - rewrite Hc. exact IH.
Qed.
End LazyPrefix.

(** A pattern [.*?/tail] whose tail consumes no slash by repetition and
    ends with [$] gives the same groups after any prefix without line feed
    is put in front of the subject. *)
Lemma re_match_prefix tail x p g :
  slash_free tail = true -> ends_eos tail = true ->
  no_line_feed x = true ->
  re_match (MinStar Dot +> Str "/" +> tail) p = Some g ->
  re_match (MinStar Dot +> Str "/" +> tail) (x ++ p) = Some g.
Proof.
  intros Hf He Hx. unfold re_match. cbn [exec].
  apply min_repeat_prefix with (n := S (literal_slashes tail)); [|exact Hx].
  intros s r H.
  destruct s as [|c s]; [discriminate |]. cbn [strip_prefix] in H.
  destruct (Ascii.eqb_spec "/" c) as [<-|_]; [|discriminate].
  split; [eauto |].
  apply exec_sound in H as (a & rest & g' & -> & Hm & _).
  simpl. rewrite count_char_app.
  rewrite (matches_slashes _ _ _ _ _ Hm Hf).
  rewrite (at_end_no_slash _ (matches_ends _ _ _ _ _ Hm He)). lia.
Qed.

(* ================================================================= *)
(** * The shape of the paths each pattern accepts *)

Ltac inv H := inversion H; subst; clear H.

Ltac invert_matches :=
  repeat match goal with
  | H : matches (Cat _ _) _ _ _ _ |- _ => inv H
  | H : matches (Named _ _) _ _ _ _ |- _ => inv H
  | H : matches (Str _) _ _ _ _ |- _ => inv H
  | H : matches (MinStar _) _ _ _ _ |- _ => inv H
  | H : matches (MaxRepeat _ _ _) _ _ _ _ |- _ => inv H
  | H : matches Eos _ _ _ _ |- _ => inv H
  end.

Ltac norm_app := rewrite ?append_nil_r; repeat rewrite append_assoc.

Ltac build_matches :=
  repeat first [ eapply M_Cat | eapply M_Named | eapply M_Str
               | eapply M_MinStar | eapply M_MaxRepeat | eapply M_Eos ].

Lemma METADATA_shape p g :
  re_match _METADATA_PATH_REGEX p = Some g ->
  exists x rest, p = x ++ "/metadata" ++ rest /\ no_line_feed x = true.
Proof.
  intros H. apply re_match_sound in H as (a & rest & -> & Hm).
  unfold _METADATA_PATH_REGEX in Hm. invert_matches.
  exists a1, rest. norm_app. auto.
Qed.

Lemma READ_shape p g :
  re_match _READ_PATH_REGEX p = Some g ->
  exists x t i e,
    p = x ++ "/" ++ t ++ "/" ++ i ++ e
    /\ no_line_feed x = true /\ type_segment t /\ id_segment i
    /\ at_end e = true
    /\ g = [("resource_id", i); ("resource_type", t)].
Proof.
  intros H. apply re_match_sound in H as (a & rest & -> & Hm).
  unfold _READ_PATH_REGEX, g_resource_type, g_resource_id in Hm.
  invert_matches.
  exists a1, a2, a4, rest. norm_app. unfold id_segment, type_segment, within in *.
  repeat split; auto.
Qed.

Lemma VREAD_shape p g :
  re_match _VREAD_PATH_REGEX p = Some g ->
  exists x t i v e,
    p = x ++ "/" ++ t ++ "/" ++ i ++ "/_history/" ++ v ++ e
    /\ no_line_feed x = true /\ type_segment t /\ id_segment i /\ id_segment v
    /\ at_end e = true
    /\ g = [("version_id", v); ("resource_id", i); ("resource_type", t)].
Proof.
  intros H. apply re_match_sound in H as (a & rest & -> & Hm).
  unfold _VREAD_PATH_REGEX, g_resource_type, g_resource_id, g_version_id in Hm.
  invert_matches.
  exists a1, a2, a4, a6, rest. norm_app. unfold id_segment, type_segment, within in *.
  repeat split; auto.
Qed.

Lemma CREATE_shape p g :
  re_match _CREATE_PATH_REGEX p = Some g ->
  exists x t e,
    p = x ++ "/" ++ t ++ e
    /\ no_line_feed x = true /\ type_segment t
    /\ at_end e = true
    /\ g = [("resource_type", t)].
Proof.
  intros H. apply re_match_sound in H as (a & rest & -> & Hm).
  unfold _CREATE_PATH_REGEX, g_resource_type in Hm.
  invert_matches.
  exists a1, a2, rest. norm_app. unfold type_segment. repeat split; auto.
Qed.

Lemma SEARCH_POST_shape p g :
  re_match _SEARCH_TYPE_POST_PATH_REGEX p = Some g ->
  exists x t e,
    p = x ++ "/" ++ t ++ "/_search" ++ e
    /\ no_line_feed x = true /\ type_segment t
    /\ at_end e = true
    /\ g = [("resource_type", t)].
Proof.
  intros H. apply re_match_sound in H as (a & rest & -> & Hm).
  unfold _SEARCH_TYPE_POST_PATH_REGEX, g_resource_type in Hm.
  invert_matches.
  exists a1, a2, rest. norm_app. unfold type_segment. repeat split; auto.
Qed.

(* ================================================================= *)
(** * The dispatch loop, method by method *)

Arguments re_match : simpl never.

Section Dispatch.
Variable is_resource_type : string -> bool.

Local Abbreviation from_match := (from_match is_resource_type).
Local Abbreviation classify := (classify is_resource_type).

Lemma classify_GET p :
  classify "GET" p
  = Ok (match re_match _METADATA_PATH_REGEX p with
        | Some _ => capabilities_info
        | None =>
            or_else (from_match (re_match _READ_PATH_REGEX p) read)
           (or_else (from_match (re_match _VREAD_PATH_REGEX p) vread)
           (or_else (from_match (re_match _SEARCH_TYPE_GET_PATH_REGEX p) search_type)
                    empty))
        end).
Proof.
  unfold classify, parse_fhir_request. simpl.
  destruct (re_match _METADATA_PATH_REGEX p); [reflexivity |].
  destruct (from_match (re_match _READ_PATH_REGEX p) read); [reflexivity |].
  destruct (from_match (re_match _VREAD_PATH_REGEX p) vread); [reflexivity |].
  destruct (from_match (re_match _SEARCH_TYPE_GET_PATH_REGEX p) search_type);
    reflexivity.
Qed.

Lemma classify_POST p :
  classify "POST" p
  = Ok (or_else (from_match (re_match _CREATE_PATH_REGEX p) create)
       (or_else (from_match (re_match _SEARCH_TYPE_POST_PATH_REGEX p) search_type)
                empty)).
Proof.
  unfold classify, parse_fhir_request. simpl.
  destruct (from_match (re_match _CREATE_PATH_REGEX p) create); [reflexivity |].
  destruct (from_match (re_match _SEARCH_TYPE_POST_PATH_REGEX p) search_type);
    reflexivity.
Qed.

Lemma classify_PUT p :
  classify "PUT" p
  = Ok (or_else (from_match (re_match _UPDATE_PATH_REGEX p) update) empty).
Proof.
  unfold classify, parse_fhir_request. simpl.
  destruct (from_match (re_match _UPDATE_PATH_REGEX p) update); reflexivity.
Qed.

Lemma classify_PATCH p :
  classify "PATCH" p
  = Ok (or_else (from_match (re_match _PATCH_PATH_REGEX p) patch) empty).
Proof.
  unfold classify, parse_fhir_request. simpl.
  destruct (from_match (re_match _PATCH_PATH_REGEX p) patch); reflexivity.
Qed.

Lemma classify_DELETE p :
  classify "DELETE" p
  = Ok (or_else (from_match (re_match _DELETE_PATH_REGEX p) delete) empty).
Proof.
  unfold classify, parse_fhir_request. simpl.
  destruct (from_match (re_match _DELETE_PATH_REGEX p) delete); reflexivity.
Qed.

Lemma classify_other m p :
  m <> "GET" -> m <> "POST" -> m <> "PUT" -> m <> "PATCH" -> m <> "DELETE" ->
  classify m p = Ok empty.
Proof.
  intros H1 H2 H3 H4 H5.
  apply String.eqb_neq in H1, H2, H3, H4, H5.
  unfold classify, parse_fhir_request. simpl.
  rewrite H1, H2, H3, H4, H5. reflexivity.
Qed.

(** The five methods the matchers know, or any other string. *)
Lemma method_cases (m : string) :
  m = "GET" \/ m = "POST" \/ m = "PUT" \/ m = "PATCH" \/ m = "DELETE"
  \/ (m <> "GET" /\ m <> "POST" /\ m <> "PUT" /\ m <> "PATCH" /\ m <> "DELETE").
Proof.
  destruct (String.eqb_spec m "GET"); auto.
  destruct (String.eqb_spec m "POST"); auto.
  destruct (String.eqb_spec m "PUT"); auto.
  destruct (String.eqb_spec m "PATCH"); auto.
  destruct (String.eqb_spec m "DELETE"); auto 10.
Qed.

(** What [from_match] returns when it returns. *)
Lemma from_match_Some m kind info :
  from_match m kind = Some info ->
  exists g t,
    m = Some g /\ get "resource_type" g = Some t
    /\ t <> EmptyString /\ is_resource_type t = true
    /\ info = {| resource_type := Some t; interaction_type := Some kind;
                 resource_id := get "resource_id" g;
                 version_id := get "version_id" g |}.
Proof.
  destruct m as [g|]; [|discriminate]. unfold from_match.
  destruct (get "resource_type" g) as [[|c t]|] eqn:E; try discriminate.
  destruct (is_resource_type (String c t)) eqn:Ho; [|discriminate].
  simpl. intros [= <-]. exists g, (String c t). repeat split; auto. discriminate.
Qed.

End Dispatch.

(* ================================================================= *)
(** * Paths on which the patterns are sure to match *)

Lemma class_not_line_feed cs c :
  cs = cls_A_z \/ cs = cls_id ->
  in_charset cs c = true -> in_charset Dot c = true.
Proof.
  intros [-> | ->]; destruct c as [[] [] [] [] [] [] [] []]; simpl; auto.
Qed.

Lemma type_segment_no_line_feed t : type_segment t -> no_line_feed t = true.
Proof.
  apply all_chars_impl. intros c. apply (class_not_line_feed cls_A_z); auto.
Qed.

Lemma id_segment_no_line_feed i : id_segment i -> no_line_feed i = true.
Proof.
  intros [H _]; revert H.
  apply all_chars_impl. intros c. apply (class_not_line_feed cls_id); auto.
Qed.

Lemma no_line_feed_app a b :
  no_line_feed (a ++ b) = no_line_feed a && no_line_feed b.
Proof. apply all_chars_app. Qed.

Lemma METADATA_complete x rest :
  no_line_feed x = true ->
  exists g, re_match _METADATA_PATH_REGEX (x ++ "/metadata" ++ rest) = Some g.
Proof.
  intros Hx.
  assert (Hm : matches _METADATA_PATH_REGEX (x ++ "/metadata") rest [] []).
  { unfold _METADATA_PATH_REGEX. build_matches; auto. }
  apply re_match_complete in Hm. now rewrite append_assoc in Hm.
Qed.

Lemma READ_complete x t i e :
  no_line_feed x = true -> type_segment t -> id_segment i -> at_end e = true ->
  exists g, re_match _READ_PATH_REGEX (x ++ "/" ++ t ++ "/" ++ i ++ e) = Some g.
Proof.
  intros Hx Ht [Hi [Hlo Hhi]] He.
  assert (Hm : matches _READ_PATH_REGEX
                 (x ++ "/" ++ t ++ "/" ++ i ++ EmptyString) e []
                 [("resource_id", i); ("resource_type", t)]).
  { unfold _READ_PATH_REGEX, g_resource_type, g_resource_id.
    build_matches; auto; simpl; lia. }
  apply re_match_complete in Hm. revert Hm. norm_app. auto.
Qed.

Lemma CREATE_complete x t e :
  no_line_feed x = true -> type_segment t -> at_end e = true ->
  exists g, re_match _CREATE_PATH_REGEX (x ++ "/" ++ t ++ e) = Some g.
Proof.
  intros Hx Ht He.
  assert (Hm : matches _CREATE_PATH_REGEX
                 (x ++ "/" ++ t ++ EmptyString) e [] [("resource_type", t)]).
  { unfold _CREATE_PATH_REGEX, g_resource_type.
    build_matches; auto; simpl; lia. }
  apply re_match_complete in Hm. revert Hm. norm_app. auto.
Qed.

(** A path of the vread shape also has the read shape: [_history] is a run
    of [[A-z]] and the version is an identifier. *)
Lemma VREAD_then_READ p g :
  re_match _VREAD_PATH_REGEX p = Some g ->
  exists g', re_match _READ_PATH_REGEX p = Some g'.
Proof.
  intros H. apply VREAD_shape in H
    as (x & t & i & v & e & -> & Hx & Ht & Hi & Hv & He & _).
  replace (x ++ "/" ++ t ++ "/" ++ i ++ "/_history/" ++ v ++ e)
    with ((x ++ "/" ++ t ++ "/" ++ i) ++ "/" ++ "_history" ++ "/" ++ v ++ e)
    by (norm_app; reflexivity).
  apply READ_complete; auto; [|reflexivity].
  rewrite !no_line_feed_app, Hx, (type_segment_no_line_feed _ Ht),
    (id_segment_no_line_feed _ Hi). reflexivity.
Qed.

(** A path of the POST search shape also has the create shape. *)
Lemma SEARCH_POST_then_CREATE p g :
  re_match _SEARCH_TYPE_POST_PATH_REGEX p = Some g ->
  exists g', re_match _CREATE_PATH_REGEX p = Some g'.
Proof.
  intros H. apply SEARCH_POST_shape in H as (x & t & e & -> & Hx & Ht & He & _).
  replace (x ++ "/" ++ t ++ "/_search" ++ e)
    with ((x ++ "/" ++ t) ++ "/" ++ "_search" ++ e)
    by (norm_app; reflexivity).
  apply CREATE_complete; auto; [|reflexivity].
  rewrite !no_line_feed_app, Hx, (type_segment_no_line_feed _ Ht). reflexivity.
Qed.

(** The four tails are stable under prefixes. *)
Lemma READ_prefix x p g :
  no_line_feed x = true ->
  re_match _READ_PATH_REGEX p = Some g ->
  re_match _READ_PATH_REGEX (x ++ p) = Some g.
Proof. apply re_match_prefix; reflexivity. Qed.

Lemma VREAD_prefix x p g :
  no_line_feed x = true ->
  re_match _VREAD_PATH_REGEX p = Some g ->
  re_match _VREAD_PATH_REGEX (x ++ p) = Some g.
Proof. apply re_match_prefix; reflexivity. Qed.

Lemma CREATE_prefix x p g :
  no_line_feed x = true ->
  re_match _CREATE_PATH_REGEX p = Some g ->
  re_match _CREATE_PATH_REGEX (x ++ p) = Some g.
Proof. apply re_match_prefix; reflexivity. Qed.

Lemma SEARCH_POST_prefix x p g :
  no_line_feed x = true ->
  re_match _SEARCH_TYPE_POST_PATH_REGEX p = Some g ->
  re_match _SEARCH_TYPE_POST_PATH_REGEX (x ++ p) = Some g.
Proof. apply re_match_prefix; reflexivity. Qed.

Lemma METADATA_prefix x p g :
  no_line_feed x = true ->
  re_match _METADATA_PATH_REGEX p = Some g ->
  exists g', re_match _METADATA_PATH_REGEX (x ++ p) = Some g'.
Proof.
  intros Hx H. apply METADATA_shape in H as (y & rest & -> & Hy).
  rewrite <- append_assoc. apply METADATA_complete.
  now rewrite no_line_feed_app, Hx, Hy.
Qed.

(* ================================================================= *)
(** * Where a result comes from *)

Lemma from_match_built o R kind p r :
  In R capturing_patterns -> kind <> capabilities ->
  from_match o (re_match R p) kind = Some r ->
  built_from o p r.
Proof.
  intros HR Hk H. apply from_match_Some in H as (g & t & Hg & Ht & Hne & Ho & ->).
  exists R, kind, g, t. repeat split; auto.
Qed.

Lemma or_else_cases (a : option InteractionInfo) b :
  (exists r, a = Some r /\ or_else a b = r) \/ (a = None /\ or_else a b = b).
Proof. destruct a; simpl; eauto. Qed.

(** Every classification is the empty result, the capabilities result, or
    a result built by [from_match]; no exception is raised. *)
Lemma classify_origin o m p :
  exists r, classify o m p = Ok r
    /\ (r = empty \/ r = capabilities_info \/ built_from o p r).
Proof.
  assert (HR : forall R kind b,
             In R capturing_patterns -> kind <> capabilities ->
             (b = empty \/ b = capabilities_info \/ built_from o p b) ->
             let r := or_else (from_match o (re_match R p) kind) b in
             r = empty \/ r = capabilities_info \/ built_from o p r).
  { intros R kind b HR Hk Hb r. subst r.
    destruct (or_else_cases (from_match o (re_match R p) kind) b)
      as [(r & Hr & ->) | [_ ->]]; auto.
    right; right. eapply from_match_built; eauto. }
  destruct (method_cases m) as [-> | [-> | [-> | [-> | [-> | H]]]]].
  - rewrite classify_GET. eexists; split; [reflexivity |].
    destruct (re_match _METADATA_PATH_REGEX p); auto.
    repeat (apply HR; [simpl; auto | discriminate |]). auto.
  - rewrite classify_POST. eexists; split; [reflexivity |].
    repeat (apply HR; [simpl; auto | discriminate |]). auto.
  - rewrite classify_PUT. eexists; split; [reflexivity |].
    repeat (apply HR; [simpl; auto | discriminate |]). auto.
  - rewrite classify_PATCH. eexists; split; [reflexivity |].
    repeat (apply HR; [simpl; auto | discriminate |]). auto.
  - rewrite classify_DELETE. eexists; split; [reflexivity |].
    repeat (apply HR; [simpl; auto | discriminate |]). auto.
  - destruct H as (H1 & H2 & H3 & H4 & H5).
    rewrite classify_other by auto. eauto.
Qed.

Lemma parse_origin o req :
  exists r, parse_fhir_request o req = Ok r
    /\ (r = empty \/ r = capabilities_info
        \/ exists p, built_from o p r).
Proof.
  destruct req as [[m p]|].
  - destruct (classify_origin o m p) as (r & Hr & [H | [H | H]]); eauto 6.
  - exists empty; auto.
Qed.

(* ================================================================= *)
(** * The invariants of the result *)

(** C1 (as stated, refuted).  The result for GET /metadata carries an
    interaction type and nothing else, so "interaction_type is None iff
    resource_type, resource_id and version_id are all None" fails on it. *)
Lemma capabilities_breaks_biconditional :
  exists r,
    classify fhir "GET" "/metadata" = Ok r
    /\ ~ (interaction_type r = None
          <-> resource_type r = None /\ resource_id r = None
              /\ version_id r = None).
Proof.
  eexists; split; [reflexivity |].
  simpl. intros [_ H]. discriminate H; auto.
Qed.

(** C1 (amended).  For every oracle and every request, the call returns a
    result [r] in which resource_type, resource_id and version_id are all
    None exactly when interaction_type is None or capabilities; and when
    interaction_type is None the three fields are None. *)
Theorem interaction_type_invariant (o : string -> bool) (req : option Request) :
  exists r,
    parse_fhir_request o req = Ok r
    /\ (interaction_type r = None ->
        resource_type r = None /\ resource_id r = None /\ version_id r = None)
    /\ (resource_type r = None /\ resource_id r = None /\ version_id r = None
        <-> interaction_type r = None \/ interaction_type r = Some capabilities).
Proof.
  destruct (parse_origin o req) as (r & Hr & H).
  exists r; split; [exact Hr |].
  destruct H as [-> | [-> | (p & R & kind & g & t & _ & _ & _ & _ & _ & Hk & ->)]];
    simpl.
  - repeat split; auto.
  - repeat split; auto; discriminate.
  - split; [discriminate |]. split.
    + intros (Hn & _); discriminate Hn.
    + intros [Hn | [= Hn]]; [discriminate Hn | contradiction].
Qed.

(** C4.  Whenever the returned result has resource_type set to [s], the
    oracle answers true on [s]. *)
Theorem resource_type_validated (o : string -> bool) (req : option Request)
        (r : InteractionInfo) (s : string) :
  parse_fhir_request o req = Ok r ->
  resource_type r = Some s ->
  o s = true.
Proof.
  intros Hr Hs.
  destruct (parse_origin o req) as (r' & Hr' & H).
  rewrite Hr in Hr'. injection Hr' as <-.
  destruct H as [-> | [-> | (p & R & kind & g & t & _ & _ & _ & _ & Ho & _ & ->)]];
    simpl in Hs; try discriminate.
  injection Hs as <-. exact Ho.
Qed.

Lemma resource_type_validated_witness :
  let r := mkInteractionInfo (Some "Patient") (Some read) (Some "123") None in
  parse_fhir_request fhir (Some (mkRequest "GET" "/Patient/123")) = Ok r
  /\ resource_type r = Some "Patient"
  /\ fhir "Patient" = true.
Proof.
  cbv zeta. split; [reflexivity | split; [reflexivity |]].
  apply (resource_type_validated fhir (Some (mkRequest "GET" "/Patient/123"))
           (mkInteractionInfo (Some "Patient") (Some read) (Some "123") None)
           "Patient"); reflexivity.
Defined.

(* ================================================================= *)
(** * Scenarios *)

(** C5.  With an oracle that accepts Patient and rejects _history,
    GET /Patient/123/_history/1 is a vread of Patient 123, version 1: the
    read matcher, tried first, declines (its pattern captures _history as
    the resource type) and the vread matcher returns the result. *)
Theorem vread_scenario (o : string -> bool) :
  o "Patient" = true -> o "_history" = false ->
  match_ (ReadPathMatcher o) "GET" "/Patient/123/_history/1" = Ok None
  /\ match_ (VReadPathMatcher o) "GET" "/Patient/123/_history/1"
     = Ok (Some vread_Patient_123_1)
  /\ classify o "GET" "/Patient/123/_history/1" = Ok vread_Patient_123_1.
Proof.
  intros HP HH.
  assert (Hread : re_match _READ_PATH_REGEX "/Patient/123/_history/1"
                  = Some [("resource_id", "1"); ("resource_type", "_history")])
    by reflexivity.
  assert (Hvread : re_match _VREAD_PATH_REGEX "/Patient/123/_history/1"
                   = Some [("version_id", "1"); ("resource_id", "123");
                           ("resource_type", "Patient")])
    by reflexivity.
  assert (Hmeta : re_match _METADATA_PATH_REGEX "/Patient/123/_history/1" = None)
    by reflexivity.
  repeat split.
  - cbn [match_ ReadPathMatcher]. simpl String.eqb. cbn [negb].
    rewrite Hread. unfold from_match. cbn. rewrite HH. reflexivity.
  - cbn [match_ VReadPathMatcher]. simpl String.eqb. cbn [negb].
    rewrite Hvread. unfold from_match. cbn. rewrite HP. reflexivity.
  - rewrite classify_GET, Hmeta, Hread, Hvread.
    unfold from_match. cbn. rewrite HH. cbn. rewrite HP. reflexivity.
Qed.

Lemma vread_scenario_witness :
  fhir "Patient" = true /\ fhir "_history" = false
  /\ match_ (ReadPathMatcher fhir) "GET" "/Patient/123/_history/1" = Ok None
  /\ match_ (VReadPathMatcher fhir) "GET" "/Patient/123/_history/1"
     = Ok (Some vread_Patient_123_1)
  /\ classify fhir "GET" "/Patient/123/_history/1" = Ok vread_Patient_123_1.
Proof.
  split; [reflexivity | split; [reflexivity |]].
  apply (vread_scenario fhir); reflexivity.
Defined.

(* ================================================================= *)
(** * Totality *)

(** C8.  No matcher raises, whatever the method and the path: each returns
    a result or None.  [parse_fhir_request] therefore returns a result for
    every request: the empty result, the capabilities result, or a result
    built by [from_match] from the groups of a pattern; and that result is
    [InteractionInfo.empty()] when the request is absent or when every
    matcher declines. *)
Theorem parse_fhir_request_total (o : string -> bool) :
  (forall M m p, In M (matchers o) -> exists res, match_ M m p = Ok res)
  /\ (forall req, exists r,
        parse_fhir_request o req = Ok r
        /\ (r = empty \/ r = capabilities_info \/ exists p, built_from o p r))
  /\ (forall m p,
        (forall M, In M (matchers o) -> match_ M m p = Ok None) ->
        classify o m p = Ok empty)
  /\ parse_fhir_request o None = Ok empty.
Proof.
  repeat split.
  - intros M m p HM. simpl in HM.
    destruct HM as [<- | [<- | [<- | [<- | [<- | [<- | [<- | [<- | []]]]]]]]];
      cbn [match_ MetadataPathMatcher ReadPathMatcher VReadPathMatcher
           CreatePathMatcher SearchPathMatcher UpdatePathMatcher
           PatchPathMatcher DeletePathMatcher];
      try (match goal with |- context [negb (?m =? ?s)] =>
             destruct (m =? s); cbn [negb] end; eauto).
    + destruct (re_match _METADATA_PATH_REGEX p); eauto.
    + cbn [existsb].
      destruct (String.eqb_spec m "GET") as [-> | HG]; [simpl; eauto |].
      destruct (String.eqb_spec m "POST") as [-> | HP]; simpl; eauto.
  - intros req. apply parse_origin.
  - intros m p H. unfold classify, parse_fhir_request. cbn [method url_path].
    generalize (matchers o) H. clear H.
    induction l as [|M l IH]; intros H; cbn [first_match]; [reflexivity |].
    rewrite (H M (or_introl eq_refl)). cbn [bind].
    apply IH. intros M' HM'. apply H. right; exact HM'.
Qed.

(* ================================================================= *)
(** * Update, patch and delete *)

Ltac from_match_cases o p :=
  change _PATCH_PATH_REGEX with _UPDATE_PATH_REGEX;
  change _DELETE_PATH_REGEX with _UPDATE_PATH_REGEX;
  unfold from_match;
  destruct (re_match _UPDATE_PATH_REGEX p) as [g|]; cbn [or_else];
  [ destruct (get "resource_type" g) as [[|c t]|]; cbn [or_else];
    [ | destruct (o (String c t)); cbn [negb or_else] | ] | ].

(** C9.  On every path the update, patch and delete matchers accept the
    same paths with the same captures and differ only in the interaction
    type: PUT gives the update result with fields (rt, rid, vid) iff PATCH
    gives the patch result with the same fields iff DELETE gives the delete
    result with the same fields; and one is empty iff the others are. *)
Theorem update_patch_delete_agree (o : string -> bool) (p : string)
        (rt rid vid : option string) :
  let info kind := mkInteractionInfo rt (Some kind) rid vid in
  (match_ (UpdatePathMatcher o) "PUT" p = Ok (Some (info update))
   <-> match_ (PatchPathMatcher o) "PATCH" p = Ok (Some (info patch)))
  /\ (match_ (PatchPathMatcher o) "PATCH" p = Ok (Some (info patch))
      <-> match_ (DeletePathMatcher o) "DELETE" p = Ok (Some (info delete)))
  /\ (classify o "PUT" p = Ok (info update)
      <-> classify o "PATCH" p = Ok (info patch))
  /\ (classify o "PATCH" p = Ok (info patch)
      <-> classify o "DELETE" p = Ok (info delete))
  /\ (classify o "PUT" p = Ok empty <-> classify o "PATCH" p = Ok empty)
  /\ (classify o "PATCH" p = Ok empty <-> classify o "DELETE" p = Ok empty).
Proof.
  intros info. subst info.
  rewrite classify_PUT, classify_PATCH, classify_DELETE.
  cbn [match_ UpdatePathMatcher PatchPathMatcher DeletePathMatcher].
  simpl String.eqb. cbn [negb].
  from_match_cases o p;
    repeat split; intros [= ? ? ?]; subst; reflexivity.
Qed.

(* ================================================================= *)
(** * Capabilities *)

(** A string without line feed has none in any of its prefixes. *)
Lemma no_line_feed_prefix (a b : string) :
  no_line_feed (a ++ b) = true -> no_line_feed a = true.
Proof. rewrite no_line_feed_app. intros H. now apply andb_prop in H. Qed.

(** On a path without line feed, /metadata anywhere is /metadata on the
    first line. *)
Lemma contains_metadata_first_line (p : string) :
  no_line_feed p = true ->
  (exists a b, p = a ++ "/metadata" ++ b) -> first_line_has_metadata p.
Proof.
  intros Hp (a & b & ->). exists a, b. split; [reflexivity |].
  exact (no_line_feed_prefix _ _ Hp).
Qed.

(** [.] stops at a line feed: /metadata is found whenever no line feed
    comes before it, whatever follows. *)
Lemma capabilities_on_first_line (o : string -> bool) (a b : string) :
  no_line_feed a = true ->
  classify o "GET" (a ++ "/metadata" ++ b) = Ok capabilities_info.
Proof.
  intros Ha. rewrite classify_GET.
  destruct (METADATA_complete a b Ha) as [g ->]. reflexivity.
Qed.

(** Why the paths below are taken without line feed: the string made of a
    line feed followed by /metadata contains /metadata, and the pattern
    fails on it.  [request.url.path] is the path component of the request
    URL as [urlsplit] gives it, and holds no line feed. *)
Lemma metadata_after_line_feed :
  let path := line_feed ++ "/metadata" in
  (exists a b, path = a ++ "/metadata" ++ b)
  /\ no_line_feed path = false
  /\ classify fhir "GET" path = Ok empty.
Proof.
  cbv zeta. split; [| split].
  - exists line_feed, EmptyString. reflexivity.
  - reflexivity.
  - reflexivity.
Qed.

(** C6.  Every GET request whose path contains /metadata anywhere is
    classified as capabilities: interaction type capabilities, every other
    field absent.  This holds whatever else the path looks like, because
    the capabilities matcher is the first of the list and accepts the
    path, so that no other matcher is consulted.  The path is the one of a
    request URL, which holds no line feed.  In particular GET /metadata is
    classified as capabilities. *)
Theorem capabilities_first (o : string -> bool) (p : string) :
  no_line_feed p = true ->
  (exists a b, p = a ++ "/metadata" ++ b) ->
  hd_error (matchers o) = Some MetadataPathMatcher
  /\ match_ MetadataPathMatcher "GET" p = Ok (Some capabilities_info)
  /\ classify o "GET" p = Ok capabilities_info
  /\ classify o "GET" "/metadata" = Ok capabilities_info.
Proof.
  intros Hp Hc.
  destruct (contains_metadata_first_line p Hp Hc) as (a & b & -> & Ha).
  split; [reflexivity |]. split; [| split; [| reflexivity]].
  - cbn [match_ MetadataPathMatcher]. simpl String.eqb. cbn [negb].
    destruct (METADATA_complete a b Ha) as [g ->]. reflexivity.
  - apply capabilities_on_first_line. exact Ha.
Qed.

(** GET /Patient/metadata has the shape of a read of Patient/metadata, and
    is classified as capabilities. *)
Lemma capabilities_first_witness :
  no_line_feed "/Patient/metadata" = true
  /\ (exists a b, "/Patient/metadata" = a ++ "/metadata" ++ b)
  /\ match_ (ReadPathMatcher fhir) "GET" "/Patient/metadata"
     = Ok (Some {| resource_type := Some "Patient";
                   interaction_type := Some read;
                   resource_id := Some "metadata";
                   version_id := None |})
  /\ classify fhir "GET" "/Patient/metadata" = Ok capabilities_info.
Proof.
  assert (Hc : exists a b, "/Patient/metadata" = a ++ "/metadata" ++ b)
    by (exists "/Patient", EmptyString; reflexivity).
  split; [reflexivity |]. split; [exact Hc |]. split; [reflexivity |].
  exact (proj1 (proj2 (proj2
    (capabilities_first fhir "/Patient/metadata" eq_refl Hc)))).
Defined.

(** The scenario of the claim: GET /metadata, under every oracle. *)
Lemma capabilities_scenario (o : string -> bool) :
  classify o "GET" "/metadata" = Ok capabilities_info.
Proof. reflexivity. Qed.

(* ================================================================= *)
(** * Paths that end in a slash *)

Lemma last_char_suffix (a b : string) c :
  last_char b = Some c -> last_char (a ++ b) = Some c.
Proof.
  intros H. rewrite last_char_app. destruct b; [discriminate | exact H].
Qed.

Lemma last_char_slash (q : string) : last_char (q ++ "/") = Some slash.
Proof. apply last_char_suffix. reflexivity. Qed.

Lemma last_char_nonempty (s : string) :
  1 <= String.length s -> exists c, last_char s = Some c.
Proof.
  induction s as [|d s IH]; simpl; [lia |].
  intros _. destruct s as [|d' s]; [eauto |].
  apply IH. simpl. lia.
Qed.

(** An identifier followed by the end of the subject does not end in a
    slash. *)
Lemma id_tail_last_char i e :
  id_segment i -> at_end e = true ->
  exists c, last_char (i ++ e) = Some c /\ c <> slash.
Proof.
  intros [Hi [Hlo _]] He.
  destruct (at_end_cases _ He) as [-> | ->].
  - rewrite append_nil_r.
    destruct (last_char_nonempty i Hlo) as [c Hc]. exists c; split; [exact Hc |].
    intros ->. apply (last_char_all _ _ _ Hi) in Hc. discriminate Hc.
  - exists LF; split; [apply last_char_suffix; reflexivity | discriminate].
Qed.

Lemma READ_slash_end q : re_match _READ_PATH_REGEX (q ++ "/") = None.
Proof.
  destruct (re_match _READ_PATH_REGEX (q ++ "/")) as [g|] eqn:E; [|reflexivity].
  apply READ_shape in E as (x & t & i & e & Hp & _ & _ & Hi & He & _).
  destruct (id_tail_last_char i e Hi He) as (c & Hc & Hne).
  apply (f_equal last_char) in Hp. rewrite last_char_slash in Hp.
  exfalso. apply Hne.
  assert (H : last_char (x ++ "/" ++ t ++ "/" ++ i ++ e) = Some c)
    by (do 4 apply last_char_suffix; exact Hc).
  congruence.
Qed.

Lemma VREAD_slash_end q : re_match _VREAD_PATH_REGEX (q ++ "/") = None.
Proof.
  destruct (re_match _VREAD_PATH_REGEX (q ++ "/")) as [g|] eqn:E; [|reflexivity].
  apply VREAD_shape in E as (x & t & i & v & e & Hp & _ & _ & _ & Hv & He & _).
  destruct (id_tail_last_char v e Hv He) as (c & Hc & Hne).
  apply (f_equal last_char) in Hp. rewrite last_char_slash in Hp.
  exfalso. apply Hne.
  assert (H : last_char (x ++ "/" ++ t ++ "/" ++ i ++ "/_history/" ++ v ++ e)
              = Some c)
    by (do 6 apply last_char_suffix; exact Hc).
  congruence.
Qed.

Lemma SEARCH_POST_slash_end q :
  re_match _SEARCH_TYPE_POST_PATH_REGEX (q ++ "/") = None.
Proof.
  destruct (re_match _SEARCH_TYPE_POST_PATH_REGEX (q ++ "/")) as [g|] eqn:E;
    [|reflexivity].
  apply SEARCH_POST_shape in E as (x & t & e & Hp & _ & _ & He & _).
  apply (f_equal last_char) in Hp. rewrite last_char_slash in Hp.
  assert (H : exists c, last_char ("/_search" ++ e) = Some c /\ c <> slash)
    by (destruct (at_end_cases _ He) as [-> | ->]; eexists; split;
        [reflexivity | discriminate | reflexivity | discriminate]).
  destruct H as (c & Hc & Hne).
  exfalso. apply Hne.
  assert (H : last_char (x ++ "/" ++ t ++ "/_search" ++ e) = Some c)
    by (do 3 apply last_char_suffix; exact Hc).
  congruence.
Qed.

(** On a path that ends in a slash the create pattern (also used for GET
    searches) can only capture the empty resource type. *)
Lemma CREATE_slash_end q g :
  re_match _CREATE_PATH_REGEX (q ++ "/") = Some g ->
  g = [("resource_type", EmptyString)].
Proof.
  intros E.
  apply CREATE_shape in E as (x & t & e & Hp & _ & Ht & He & ->).
  apply (f_equal last_char) in Hp. rewrite last_char_slash in Hp.
  destruct (at_end_cases _ He) as [-> | ->].
  - destruct t as [|c t]; [reflexivity |]. exfalso.
    destruct (last_char_nonempty (String c t)) as [d Hd]; [simpl; lia |].
    assert (H : last_char (x ++ "/" ++ String c t ++ EmptyString) = Some d)
      by (rewrite append_nil_r; do 2 apply last_char_suffix; exact Hd).
    apply (last_char_all _ _ _ Ht) in Hd.
    assert (d = slash) by congruence. subst d. discriminate Hd.
  - exfalso.
    assert (H : last_char (x ++ "/" ++ t ++ line_feed) = Some LF)
      by (do 3 apply last_char_suffix; reflexivity).
    unfold line_feed in H. rewrite H in Hp. discriminate Hp.
Qed.

Lemma from_match_empty_capture o g kind :
  get "resource_type" g = Some EmptyString ->
  from_match o (Some g) kind = None.
Proof. intros H. unfold from_match. rewrite H. reflexivity. Qed.

Lemma from_match_CREATE_slash_end o q kind :
  from_match o (re_match _CREATE_PATH_REGEX (q ++ "/")) kind = None.
Proof.
  destruct (re_match _CREATE_PATH_REGEX (q ++ "/")) as [g|] eqn:E; [|reflexivity].
  apply CREATE_slash_end in E as ->. reflexivity.
Qed.

(** Why the paths below are taken without line feed: the string made of a
    line feed followed by /metadata/ ends in a slash and contains
    /metadata, and the capabilities pattern fails on it.  It is not the path
    of a request URL, which holds no line feed. *)
Lemma slash_end_metadata_after_line_feed :
  let path := line_feed ++ "/metadata/" in
  (exists q, path = q ++ "/")
  /\ (exists a b, path = a ++ "/metadata" ++ b)
  /\ no_line_feed path = false
  /\ classify fhir "GET" path = Ok empty.
Proof.
  cbv zeta. split; [| split; [| split]].
  - exists (line_feed ++ "/metadata"). reflexivity.
  - exists line_feed, "/". reflexivity.
  - reflexivity.
  - reflexivity.
Qed.

(** A path ending in a slash, line feeds or not: capabilities for a GET
    with /metadata on the first line, empty otherwise. *)
Lemma slash_end_by_first_line (o : string -> bool) (m q : string) :
  (m = "GET" /\ first_line_has_metadata (q ++ "/") ->
   classify o m (q ++ "/") = Ok capabilities_info)
  /\ (~ (m = "GET" /\ first_line_has_metadata (q ++ "/")) ->
      classify o m (q ++ "/") = Ok empty).
Proof.
  split.
  - intros [-> (x & y & -> & Hx)]. rewrite classify_GET.
    destruct (METADATA_complete x y Hx) as [g ->]. reflexivity.
  - intros Hnot.
    destruct (method_cases m) as [-> | [-> | [-> | [-> | [-> | H]]]]].
    + rewrite classify_GET.
      destruct (re_match _METADATA_PATH_REGEX (q ++ "/")) as [g|] eqn:E.
      * exfalso. apply Hnot. split; [reflexivity |].
        apply METADATA_shape in E as (x & y & Hp & Hx). exists x, y; auto.
      * rewrite READ_slash_end, VREAD_slash_end.
        change _SEARCH_TYPE_GET_PATH_REGEX with _CREATE_PATH_REGEX.
        rewrite from_match_CREATE_slash_end. reflexivity.
    + rewrite classify_POST, from_match_CREATE_slash_end, SEARCH_POST_slash_end.
      reflexivity.
    + rewrite classify_PUT.
      change _UPDATE_PATH_REGEX with _READ_PATH_REGEX.
      rewrite READ_slash_end. reflexivity.
    + rewrite classify_PATCH.
      change _PATCH_PATH_REGEX with _READ_PATH_REGEX.
      rewrite READ_slash_end. reflexivity.
    + rewrite classify_DELETE.
      change _DELETE_PATH_REGEX with _READ_PATH_REGEX.
      rewrite READ_slash_end. reflexivity.
    + destruct H as (H1 & H2 & H3 & H4 & H5). apply classify_other; auto.
Qed.

(** C10.  [from_match] declines a match whose resource type capture is the
    empty string, before the oracle is consulted: the result is [None]
    under every oracle.  Consequently, for every method, a path ending in a
    slash is classified as the empty result, unless the method is GET and
    the path contains /metadata, in which case it is classified as
    capabilities.  The path is the one of a request URL, which holds no
    line feed.  In particular POST / and POST /Patient/ are classified as
    the empty result. *)
Theorem empty_capture_declined (o : string -> bool) (m q : string) :
  no_line_feed (q ++ "/") = true ->
  (forall o' g kind,
      get "resource_type" g = Some EmptyString ->
      from_match o' (Some g) kind = None)
  /\ (forall g kind,
         re_match _CREATE_PATH_REGEX (q ++ "/") = Some g ->
         get "resource_type" g = Some EmptyString
         /\ from_match o (Some g) kind = None)
  /\ (m = "GET" /\ (exists a b, q ++ "/" = a ++ "/metadata" ++ b) ->
      classify o m (q ++ "/") = Ok capabilities_info)
  /\ (~ (m = "GET" /\ (exists a b, q ++ "/" = a ++ "/metadata" ++ b)) ->
      classify o m (q ++ "/") = Ok empty)
  /\ classify o "POST" "/" = Ok empty
  /\ classify o "POST" "/Patient/" = Ok empty.
Proof.
  intros Hq.
  destruct (slash_end_by_first_line o m q) as [Hcap Hempty].
  split; [intros o' g kind; apply from_match_empty_capture |].
  split; [| split; [| split; [| split; reflexivity]]].
  - intros g kind E. apply CREATE_slash_end in E as ->.
    split; reflexivity.
  - intros [Hm Hc]. apply Hcap. split; [exact Hm |].
    apply contains_metadata_first_line; assumption.
  - intros Hnot. apply Hempty. intros [Hm (x & y & Hp & _)].
    apply Hnot. split; [exact Hm |]. exists x, y. exact Hp.
Qed.

(** POST /Patient/ and GET /base/metadata/. *)
Lemma empty_capture_declined_witness :
  no_line_feed ("/Patient" ++ "/") = true
  /\ no_line_feed ("/base/metadata" ++ "/") = true
  /\ classify fhir "POST" ("/Patient" ++ "/") = Ok empty
  /\ classify fhir "GET" ("/base/metadata" ++ "/") = Ok capabilities_info.
Proof.
  split; [reflexivity |]. split; [reflexivity |]. split.
  - destruct (empty_capture_declined fhir "POST" "/Patient" eq_refl)
      as (_ & _ & _ & H & _).
    apply H. intros [Hm _]. discriminate Hm.
  - destruct (empty_capture_declined fhir "GET" "/base/metadata" eq_refl)
      as (_ & _ & H & _).
    apply H. split; [reflexivity |].
    exists "/base", "/". reflexivity.
Defined.

(** The two paths of the claim and a capabilities path, under every
    oracle. *)
Lemma slash_end_scenarios (o : string -> bool) :
  classify o "POST" "/" = Ok empty
  /\ classify o "POST" "/Patient/" = Ok empty
  /\ classify o "GET" "/Patient/" = Ok empty
  /\ classify o "GET" "/metadata/" = Ok capabilities_info.
Proof. repeat split; reflexivity. Qed.

(* ================================================================= *)
(** * Unrecognised resource types *)

(** C3 (as stated, refuted).  On GET /FakeResource/Patient the read pattern
    matches with FakeResource as the candidate resource type, which the
    oracle rejects; the classification is nevertheless not empty: the read
    matcher declines and the search matcher, tried later, accepts Patient
    (FakeResource is then part of the mount prefix). *)
Lemma rejected_candidate_not_empty :
  candidate _READ_PATH_REGEX "/FakeResource/Patient" "FakeResource"
  /\ fhir "FakeResource" = false
  /\ classify fhir "GET" "/FakeResource/Patient" = Ok search_Patient
  /\ classify fhir "GET" "/FakeResource/Patient" <> Ok empty.
Proof.
  repeat split; try discriminate.
  eexists; split; reflexivity.
Qed.

Lemma from_match_rejected o R p kind :
  (forall t, candidate R p t -> o t = false) ->
  from_match o (re_match R p) kind = None.
Proof.
  intros H. unfold from_match.
  destruct (re_match R p) as [g|] eqn:E; [|reflexivity].
  destruct (get "resource_type" g) as [[|c t]|] eqn:Eg; try reflexivity.
  rewrite (H (String c t)); [reflexivity |]. exists g; auto.
Qed.

(** C3 (amended).  A matcher whose pattern matches but captures a resource
    type that the oracle rejects declines.  Hence, when the capabilities
    matcher declines and every pattern consulted for the method that
    matches the path captures a rejected resource type, the classification
    is the empty result. *)
Theorem rejected_candidates_give_empty (o : string -> bool) (m p : string) :
  match_ MetadataPathMatcher m p = Ok None ->
  (forall R t, In R (consulted_patterns m) -> candidate R p t -> o t = false) ->
  classify o m p = Ok empty.
Proof.
  intros Hmeta Hrej.
  assert (Hfm : forall R kind, In R (consulted_patterns m) ->
                  from_match o (re_match R p) kind = None).
  { intros R kind HR. apply from_match_rejected. intros t. apply Hrej, HR. }
  destruct (method_cases m) as [-> | [-> | [-> | [-> | [-> | H]]]]].
  - rewrite classify_GET.
    cbn [match_ MetadataPathMatcher] in Hmeta. simpl String.eqb in Hmeta.
    cbn [negb] in Hmeta.
    destruct (re_match _METADATA_PATH_REGEX p); [discriminate Hmeta |].
    rewrite !Hfm by (simpl; auto). reflexivity.
  - rewrite classify_POST, !Hfm by (simpl; auto). reflexivity.
  - rewrite classify_PUT, !Hfm by (simpl; auto). reflexivity.
  - rewrite classify_PATCH, !Hfm by (simpl; auto). reflexivity.
  - rewrite classify_DELETE, !Hfm by (simpl; auto). reflexivity.
  - destruct H as (H1 & H2 & H3 & H4 & H5). apply classify_other; auto.
Qed.

Lemma rejected_candidates_give_empty_witness :
  match_ MetadataPathMatcher "GET" "/FakeResource/123" = Ok None
  /\ candidate _READ_PATH_REGEX "/FakeResource/123" "FakeResource"
  /\ classify fhir "GET" "/FakeResource/123" = Ok empty.
Proof.
  split; [reflexivity |]. split; [eexists; split; reflexivity |].
  apply (rejected_candidates_give_empty fhir "GET" "/FakeResource/123").
  - reflexivity.
  - intros R t HR (g & Hg & Ht). simpl in HR.
    destruct HR as [<- | [<- | [<- | []]]]; vm_compute in Hg;
      try discriminate Hg.
    injection Hg as <-. vm_compute in Ht. injection Ht as <-. reflexivity.
Defined.

(** The scenario of the claim, under every oracle that rejects
    FakeResource. *)
Lemma fake_resource_scenario (o : string -> bool) :
  o "FakeResource" = false ->
  classify o "GET" "/FakeResource/123" = Ok empty.
Proof.
  intros H. rewrite classify_GET.
  assert (Hread : re_match _READ_PATH_REGEX "/FakeResource/123"
                  = Some [("resource_id", "123"); ("resource_type", "FakeResource")])
    by reflexivity.
  assert (Hvread : re_match _VREAD_PATH_REGEX "/FakeResource/123" = None)
    by reflexivity.
  assert (Hsearch : re_match _SEARCH_TYPE_GET_PATH_REGEX "/FakeResource/123" = None)
    by reflexivity.
  assert (Hmeta : re_match _METADATA_PATH_REGEX "/FakeResource/123" = None)
    by reflexivity.
  rewrite Hmeta, Hread, Hvread, Hsearch. unfold from_match. cbn.
  rewrite H. reflexivity.
Qed.

(* ================================================================= *)
(** * The character classes of the captures *)

(** What holds of every result: the identifiers are 1 to 64 characters of
    [[A-Za-z0-9.-]]; the resource type is a non-empty run of [[A-z]], the
    code points 65 to 122, accepted by the oracle. *)
Lemma captures_respect_classes (o : string -> bool) (req : option Request)
      (r : InteractionInfo) :
  parse_fhir_request o req = Ok r ->
  (forall t, resource_type r = Some t ->
             type_segment t /\ t <> EmptyString /\ o t = true)
  /\ (forall i, resource_id r = Some i -> id_segment i)
  /\ (forall v, version_id r = Some v -> id_segment v).
Proof.
  intros Hr.
  destruct (parse_origin o req) as (r' & Hr' & H).
  rewrite Hr in Hr'. injection Hr' as <-.
  destruct H as [-> | [-> | (p & R & kind & g & t & HR & Hg & Ht & Hne & Ho & _ & ->)]];
    simpl; try (repeat split; discriminate).
  simpl in HR. destruct HR as [<- | [<- | [<- | [<- | []]]]].
  - apply READ_shape in Hg as (x & t' & i & e & _ & _ & Ht' & Hi & _ & ->).
    simpl in *. injection Ht as ->.
    split; [| split]; intros ? [= <-];
      first [assumption | repeat split; assumption].
  - apply VREAD_shape in Hg as (x & t' & i & v & e & _ & _ & Ht' & Hi & Hv & _ & ->).
    simpl in *. injection Ht as ->.
    split; [| split]; intros ? [= <-];
      first [assumption | repeat split; assumption].
  - apply CREATE_shape in Hg as (x & t' & e & _ & _ & Ht' & _ & ->).
    simpl in *. injection Ht as ->.
    split; [| split]; intros ? [= <-];
      first [assumption | repeat split; assumption].
  - apply SEARCH_POST_shape in Hg as (x & t' & e & _ & _ & Ht' & _ & ->).
    simpl in *. injection Ht as ->.
    split; [| split]; intros ? [= <-];
      first [assumption | repeat split; assumption].
Qed.

(** C7 (the code departs from the claim).  [[A-z]] spans the code points
    65 to 122 and so admits the six characters between Z and a, among them
    the underscore.  On /Patient/123/_history/1 the read pattern captures
    _history as the resource type, which is not made of ASCII letters; under
    an oracle that accepts that name the returned result carries it. *)
Theorem resource_type_class_admits_underscore :
  in_charset cls_A_z "_" = true /\ is_ascii_letter "_" = false
  /\ re_match _READ_PATH_REGEX "/Patient/123/_history/1"
     = Some [("resource_id", "1"); ("resource_type", "_history")]
  /\ all_chars is_ascii_letter "_history" = false
  /\ classify (oracle_of ["Patient"; "_history"]) "GET" "/Patient/123/_history/1"
     = Ok read__history_1.
Proof. repeat split; reflexivity. Qed.

(* ================================================================= *)
(** * Mount paths *)

(** C2 (as stated, refuted).  GET /Patient is a search of Patient.  Under
    the mount prefix /Observation the same request is GET
    /Observation/Patient, which the read matcher, tried before the search
    matcher, accepts as a read of the Observation whose id is Patient. *)
Lemma mount_prefix_changes_result :
  classify fhir "GET" "/Patient" = Ok search_Patient
  /\ search_Patient <> empty
  /\ classify fhir "GET" ("/Observation" ++ "/Patient")
     = Ok read_Observation_Patient
  /\ classify fhir "GET" ("/Observation" ++ "/Patient")
     <> classify fhir "GET" "/Patient".
Proof. repeat split; try reflexivity; discriminate. Qed.

(** Two more ways for a prefix to change the result: /metadata in the
    prefix makes any GET a capabilities request, and a line feed in the
    prefix stops [.*?]. *)
Lemma mount_prefix_other_changes :
  classify fhir "GET" "/Patient/123"
  = Ok (mkInteractionInfo (Some "Patient") (Some read) (Some "123") None)
  /\ classify fhir "GET" ("/metadata" ++ "/Patient/123") = Ok capabilities_info
  /\ classify fhir "GET" (("/a" ++ line_feed) ++ "/Patient/123") = Ok empty.
Proof. repeat split. Qed.

Lemma from_match_prefix o R kind x p r :
  (forall g, re_match R p = Some g -> re_match R (x ++ p) = Some g) ->
  from_match o (re_match R p) kind = Some r ->
  from_match o (re_match R (x ++ p)) kind = Some r.
Proof.
  intros HR H.
  destruct (from_match_Some _ _ _ _ H) as (g & t & Hg & _).
  rewrite (HR g Hg), <- Hg. exact H.
Qed.

Lemma from_match_decline_prefix o R kind x p :
  (forall g, re_match R p = Some g -> re_match R (x ++ p) = Some g) ->
  (exists g, re_match R p = Some g) ->
  from_match o (re_match R p) kind = None ->
  from_match o (re_match R (x ++ p)) kind = None.
Proof.
  intros HR [g Hg] H. rewrite (HR g Hg), <- Hg. exact H.
Qed.

Lemma from_match_not_capabilities o m kind r :
  from_match o m kind = Some r -> r <> capabilities_info.
Proof.
  intros H. apply from_match_Some in H as (g & t & _ & _ & _ & _ & ->).
  discriminate.
Qed.

Lemma from_match_kind o m kind r :
  from_match o m kind = Some r -> interaction_type r = Some kind.
Proof.
  intros H. apply from_match_Some in H as (g & t & _ & _ & _ & _ & ->).
  reflexivity.
Qed.

(** C2 (amended).  Let [p] be classified as a non-empty result [r] and let
    the prefix hold no line feed.  Then prefix + p is classified as [r]
    too, provided the matchers of higher priority still decline it: the
    capabilities matcher unless [r] is the capabilities result, and the
    read and vread matchers when [r] is a search-type result. *)
Theorem mount_path_invariance (o : string -> bool) (m p prefix : string)
        (r : InteractionInfo) :
  classify o m p = Ok r ->
  r <> empty ->
  no_line_feed prefix = true ->
  (r <> capabilities_info ->
   match_ MetadataPathMatcher m (prefix ++ p) = Ok None) ->
  (interaction_type r = Some search_type ->
   match_ (ReadPathMatcher o) m (prefix ++ p) = Ok None
   /\ match_ (VReadPathMatcher o) m (prefix ++ p) = Ok None) ->
  classify o m (prefix ++ p) = Ok r.
Proof.
  intros Hr Hne Hx Hmeta Hsearch.
  destruct (method_cases m) as [-> | [-> | [-> | [-> | [-> | H]]]]].
  - (* GET *)
    rewrite classify_GET in Hr |- *.
    cbn [match_ MetadataPathMatcher ReadPathMatcher VReadPathMatcher] in Hmeta, Hsearch.
    simpl String.eqb in Hmeta, Hsearch. cbn [negb] in Hmeta, Hsearch.
    destruct (re_match _METADATA_PATH_REGEX p) as [gm|] eqn:Em.
    + injection Hr as <-.
      destruct (METADATA_prefix prefix p gm Hx Em) as [g' ->]. reflexivity.
    + assert (Hcap : r <> capabilities_info ->
                     re_match _METADATA_PATH_REGEX (prefix ++ p) = None).
      { intros Hc. specialize (Hmeta Hc).
        destruct (re_match _METADATA_PATH_REGEX (prefix ++ p));
          [discriminate Hmeta | reflexivity]. }
      destruct (from_match o (re_match _READ_PATH_REGEX p) read) as [r1|] eqn:E1;
        cbn [or_else] in Hr.
      { injection Hr as <-.
        rewrite Hcap by (eapply from_match_not_capabilities; eauto).
        erewrite from_match_prefix;
          [reflexivity | intros g; now apply READ_prefix | eassumption]. }
      destruct (from_match o (re_match _VREAD_PATH_REGEX p) vread) as [r2|] eqn:E2;
        cbn [or_else] in Hr.
      { injection Hr as <-.
        rewrite Hcap by (eapply from_match_not_capabilities; eauto).
        destruct (from_match_Some _ _ _ _ E2) as (g & t & Hg & _).
        rewrite (from_match_decline_prefix o _READ_PATH_REGEX read prefix p);
          [| intros g0; now apply READ_prefix
           | eapply VREAD_then_READ; eauto | exact E1 ].
        cbn [or_else].
        erewrite from_match_prefix;
          [reflexivity | intros g0; now apply VREAD_prefix | eassumption]. }
      destruct (from_match o (re_match _SEARCH_TYPE_GET_PATH_REGEX p) search_type)
        as [r3|] eqn:E3; cbn [or_else] in Hr.
      { injection Hr as <-.
        rewrite Hcap by (eapply from_match_not_capabilities; eauto).
        destruct (Hsearch (from_match_kind _ _ _ _ E3)) as [[= Hread] [= Hvread]].
        rewrite Hread, Hvread. cbn [or_else].
        erewrite from_match_prefix;
          [reflexivity | intros g0; now apply CREATE_prefix | eassumption]. }
      injection Hr as <-. contradiction.
  - (* POST *)
    rewrite classify_POST in Hr |- *.
    destruct (from_match o (re_match _CREATE_PATH_REGEX p) create) as [r1|] eqn:E1;
      cbn [or_else] in Hr.
    { injection Hr as <-.
      erewrite from_match_prefix;
        [reflexivity | intros g; now apply CREATE_prefix | eassumption]. }
    destruct (from_match o (re_match _SEARCH_TYPE_POST_PATH_REGEX p) search_type)
      as [r2|] eqn:E2; cbn [or_else] in Hr.
    { injection Hr as <-.
      destruct (from_match_Some _ _ _ _ E2) as (g & t & Hg & _).
      rewrite (from_match_decline_prefix o _CREATE_PATH_REGEX create prefix p);
        [| intros g0; now apply CREATE_prefix
         | eapply SEARCH_POST_then_CREATE; eauto | exact E1 ].
      cbn [or_else].
      erewrite from_match_prefix;
        [reflexivity | intros g0; now apply SEARCH_POST_prefix | eassumption]. }
    injection Hr as <-. contradiction.
  - (* PUT *)
    rewrite classify_PUT in Hr |- *.
    destruct (from_match o (re_match _UPDATE_PATH_REGEX p) update) as [r1|] eqn:E1;
      cbn [or_else] in Hr; injection Hr as <-; [| contradiction].
    erewrite from_match_prefix;
      [reflexivity | intros g; now apply READ_prefix | eassumption].
  - (* PATCH *)
    rewrite classify_PATCH in Hr |- *.
    destruct (from_match o (re_match _PATCH_PATH_REGEX p) patch) as [r1|] eqn:E1;
      cbn [or_else] in Hr; injection Hr as <-; [| contradiction].
    erewrite from_match_prefix;
      [reflexivity | intros g; now apply READ_prefix | eassumption].
  - (* DELETE *)
    rewrite classify_DELETE in Hr |- *.
    destruct (from_match o (re_match _DELETE_PATH_REGEX p) delete) as [r1|] eqn:E1;
      cbn [or_else] in Hr; injection Hr as <-; [| contradiction].
    erewrite from_match_prefix;
      [reflexivity | intros g; now apply READ_prefix | eassumption].
  - destruct H as (H1 & H2 & H3 & H4 & H5).
    rewrite classify_other in Hr by auto. injection Hr as <-. contradiction.
Qed.

Lemma mount_path_invariance_witness :
  classify fhir "GET" "/Patient" = Ok search_Patient
  /\ search_Patient <> empty
  /\ no_line_feed "/subapi" = true
  /\ match_ MetadataPathMatcher "GET" ("/subapi" ++ "/Patient") = Ok None
  /\ match_ (ReadPathMatcher fhir) "GET" ("/subapi" ++ "/Patient") = Ok None
  /\ match_ (VReadPathMatcher fhir) "GET" ("/subapi" ++ "/Patient") = Ok None
  /\ classify fhir "GET" ("/subapi" ++ "/Patient") = Ok search_Patient.
Proof.
  repeat (split; [first [reflexivity | discriminate] |]).
  apply (mount_path_invariance fhir "GET" "/Patient" "/subapi" search_Patient).
  - reflexivity.
  - discriminate.
  - reflexivity.
  - intros _. reflexivity.
  - intros _. split; reflexivity.
Defined.

(* ================================================================= *)
(** * A path has one reading per pattern *)

Lemma no_slash_app a b : no_slash (a ++ b) = no_slash a && no_slash b.
Proof. apply all_chars_app. Qed.

Lemma class_not_slash cs c :
  cs = cls_A_z \/ cs = cls_id ->
  in_charset cs c = true -> negb (Ascii.eqb c slash) = true.
Proof.
  intros [-> | ->]; destruct c as [[] [] [] [] [] [] [] []]; simpl; auto.
Qed.

Lemma type_segment_no_slash t : type_segment t -> no_slash t = true.
Proof.
  apply all_chars_impl. intros c. apply (class_not_slash cls_A_z); auto.
Qed.

Lemma id_segment_no_slash i : id_segment i -> no_slash i = true.
Proof.
  intros [H _]; revert H.
  apply all_chars_impl. intros c. apply (class_not_slash cls_id); auto.
Qed.

Lemma at_end_no_slash_str e : at_end e = true -> no_slash e = true.
Proof. intros H; destruct (at_end_cases _ H) as [-> | ->]; reflexivity. Qed.

Lemma no_slash_tail s e :
  no_slash s = true -> at_end e = true -> no_slash (s ++ e) = true.
Proof.
  intros Hs He. now rewrite no_slash_app, Hs, (at_end_no_slash_str e He).
Qed.

(** The last slash of a string is where it is. *)
Lemma split_last_slash a a' b b' :
  no_slash b = true -> no_slash b' = true ->
  a ++ "/" ++ b = a' ++ "/" ++ b' ->
  a = a' /\ b = b'.
Proof.
  intros Hb Hb'. revert a'.
  induction a as [|c a IH]; intros [|c' a']; simpl; intros H.
  - injection H as ->. auto.
  - injection H as <- ->. rewrite no_slash_app in Hb.
    apply andb_true_iff in Hb as [_ Hb]. discriminate Hb.
  - injection H as -> <-. rewrite no_slash_app in Hb'.
    apply andb_true_iff in Hb' as [_ Hb']. discriminate Hb'.
  - injection H as -> H. destruct (IH _ H) as [-> ->]. auto.
Qed.

(** Text without line feed followed by the end of the subject splits in one
    way. *)
Lemma tail_unique a a' e e' :
  no_line_feed a = true -> no_line_feed a' = true ->
  at_end e = true -> at_end e' = true ->
  a ++ e = a' ++ e' ->
  a = a' /\ e = e'.
Proof.
  intros Ha Ha' He He'. revert a' Ha'.
  induction a as [|c a IH]; intros [|c' a'] Ha'; simpl; intros H; auto.
  - exfalso. subst e. simpl in Ha'. apply andb_true_iff in Ha' as [Hc _].
    destruct (append a' e'); [|discriminate He].
    simpl in He. rewrite He in Hc. discriminate Hc.
  - exfalso. subst e'. simpl in Ha. apply andb_true_iff in Ha as [Hc _].
    destruct (append a e); [|discriminate He'].
    simpl in He'. rewrite He' in Hc. discriminate Hc.
  - injection H as -> H.
    simpl in Ha, Ha'. apply andb_true_iff in Ha as [_ Ha].
    apply andb_true_iff in Ha' as [_ Ha'].
    destruct (IH Ha _ Ha' H) as [-> ->]. auto.
Qed.

Lemma READ_iff p g :
  re_match _READ_PATH_REGEX p = Some g <->
  exists x t i e,
    p = x ++ "/" ++ t ++ "/" ++ i ++ e
    /\ no_line_feed x = true /\ type_segment t /\ id_segment i
    /\ at_end e = true
    /\ g = [("resource_id", i); ("resource_type", t)].
Proof.
  split; [apply READ_shape |].
  intros (x & t & i & e & -> & Hx & Ht & Hi & He & ->).
  destruct (READ_complete x t i e Hx Ht Hi He) as [g' Hg']. rewrite Hg'.
  apply READ_shape in Hg' as (x' & t' & i' & e' & Hp & _ & Ht' & Hi' & He' & ->).
  replace (x ++ "/" ++ t ++ "/" ++ i ++ e)
    with ((x ++ "/" ++ t) ++ "/" ++ (i ++ e)) in Hp by (norm_app; reflexivity).
  replace (x' ++ "/" ++ t' ++ "/" ++ i' ++ e')
    with ((x' ++ "/" ++ t') ++ "/" ++ (i' ++ e')) in Hp by (norm_app; reflexivity).
  apply split_last_slash in Hp as [Hxt Hie];
    try (apply no_slash_tail; auto using id_segment_no_slash).
  apply split_last_slash in Hxt as [_ ->]; auto using type_segment_no_slash.
  apply tail_unique in Hie as [-> _]; auto using id_segment_no_line_feed.
Qed.

Lemma VREAD_iff p g :
  re_match _VREAD_PATH_REGEX p = Some g <->
  exists x t i v e,
    p = x ++ "/" ++ t ++ "/" ++ i ++ "/_history/" ++ v ++ e
    /\ no_line_feed x = true /\ type_segment t /\ id_segment i /\ id_segment v
    /\ at_end e = true
    /\ g = [("version_id", v); ("resource_id", i); ("resource_type", t)].
Proof.
  split; [apply VREAD_shape |].
  intros (x & t & i & v & e & -> & Hx & Ht & Hi & Hv & He & ->).
  assert (Hm : matches _VREAD_PATH_REGEX
                 (x ++ "/" ++ t ++ "/" ++ i ++ "/_history/" ++ v ++ EmptyString) e []
                 [("version_id", v); ("resource_id", i); ("resource_type", t)]).
  { unfold _VREAD_PATH_REGEX, g_resource_type, g_resource_id, g_version_id.
    destruct Hi as [Hi [? ?]], Hv as [Hv [? ?]].
    build_matches; auto; simpl; lia. }
  apply re_match_complete in Hm as [g' Hg']. revert Hg'. norm_app. intros Hg'.
  rewrite Hg'.
  apply VREAD_shape in Hg'
    as (x' & t' & i' & v' & e' & Hp & _ & Ht' & Hi' & Hv' & He' & ->).
  replace (x ++ "/" ++ t ++ "/" ++ i ++ "/_history/" ++ v ++ e)
    with ((((x ++ "/" ++ t) ++ "/" ++ i) ++ "/" ++ "_history") ++ "/" ++ (v ++ e))
    in Hp by (norm_app; reflexivity).
  replace (x' ++ "/" ++ t' ++ "/" ++ i' ++ "/_history/" ++ v' ++ e')
    with ((((x' ++ "/" ++ t') ++ "/" ++ i') ++ "/" ++ "_history") ++ "/" ++ (v' ++ e'))
    in Hp by (norm_app; reflexivity).
  apply split_last_slash in Hp as [Hp Hve];
    try (apply no_slash_tail; auto using id_segment_no_slash).
  apply split_last_slash in Hp as [Hp _]; try reflexivity.
  apply split_last_slash in Hp as [Hxt ->]; auto using id_segment_no_slash.
  apply split_last_slash in Hxt as [_ ->]; auto using type_segment_no_slash.
  apply tail_unique in Hve as [-> _]; auto using id_segment_no_line_feed.
Qed.

Lemma CREATE_iff p g :
  re_match _CREATE_PATH_REGEX p = Some g <->
  exists x t e,
    p = x ++ "/" ++ t ++ e
    /\ no_line_feed x = true /\ type_segment t
    /\ at_end e = true
    /\ g = [("resource_type", t)].
Proof.
  split; [apply CREATE_shape |].
  intros (x & t & e & -> & Hx & Ht & He & ->).
  destruct (CREATE_complete x t e Hx Ht He) as [g' Hg']. rewrite Hg'.
  apply CREATE_shape in Hg' as (x' & t' & e' & Hp & _ & Ht' & He' & ->).
  apply split_last_slash in Hp as [_ Hte];
    try (apply no_slash_tail; auto using type_segment_no_slash).
  apply tail_unique in Hte as [-> _]; auto using type_segment_no_line_feed.
Qed.

Lemma SEARCH_POST_iff p g :
  re_match _SEARCH_TYPE_POST_PATH_REGEX p = Some g <->
  exists x t e,
    p = x ++ "/" ++ t ++ "/_search" ++ e
    /\ no_line_feed x = true /\ type_segment t
    /\ at_end e = true
    /\ g = [("resource_type", t)].
Proof.
  split; [apply SEARCH_POST_shape |].
  intros (x & t & e & -> & Hx & Ht & He & ->).
  assert (Hm : matches _SEARCH_TYPE_POST_PATH_REGEX
                 (x ++ "/" ++ t ++ "/_search" ++ EmptyString) e []
                 [("resource_type", t)]).
  { unfold _SEARCH_TYPE_POST_PATH_REGEX, g_resource_type.
    build_matches; auto; simpl; lia. }
  apply re_match_complete in Hm as [g' Hg']. revert Hg'. norm_app. intros Hg'.
  rewrite Hg'.
  apply SEARCH_POST_shape in Hg' as (x' & t' & e' & Hp & _ & Ht' & He' & ->).
  replace (x ++ "/" ++ t ++ "/_search" ++ e)
    with ((x ++ "/" ++ t) ++ "/" ++ ("_search" ++ e)) in Hp by (norm_app; reflexivity).
  replace (x' ++ "/" ++ t' ++ "/_search" ++ e')
    with ((x' ++ "/" ++ t') ++ "/" ++ ("_search" ++ e')) in Hp
    by (norm_app; reflexivity).
  apply split_last_slash in Hp as [Hxt _];
    try (apply no_slash_tail; [reflexivity | assumption]).
  apply split_last_slash in Hxt as [_ ->]; auto using type_segment_no_slash.
Qed.

(* ================================================================= *)
(** * When a matcher accepts *)

Ltac conjs := repeat match goal with |- _ /\ _ => split end; auto.

Lemma from_match_intro o m kind g t :
  m = Some g -> get "resource_type" g = Some t ->
  t <> EmptyString -> o t = true ->
  from_match o m kind
  = Some {| resource_type := Some t; interaction_type := Some kind;
            resource_id := get "resource_id" g;
            version_id := get "version_id" g |}.
Proof.
  intros -> Hg Hne Ho. unfold from_match. rewrite Hg.
  destruct t; [contradiction |]. rewrite Ho. reflexivity.
Qed.

Lemma from_match_READ o p kind r :
  from_match o (re_match _READ_PATH_REGEX p) kind = Some r <->
  exists t i,
    instance_path o p t i
    /\ r = mkInteractionInfo (Some t) (Some kind) (Some i) None.
Proof.
  split.
  - intros H. apply from_match_Some in H as (g & t & Hg & Ht & Hne & Ho & ->).
    apply READ_iff in Hg as (x & t' & i & e & -> & Hx & Ht' & Hi & He & ->).
    simpl in Ht. injection Ht as ->.
    exists t, i. split; [exists x, e; conjs | reflexivity].
  - intros (t & i & (x & e & -> & Hx & Ht & Hne & Ho & Hi & He) & ->).
    rewrite (from_match_intro o _ kind [("resource_id", i); ("resource_type", t)] t);
      [reflexivity | | reflexivity | assumption | assumption].
    apply READ_iff. exists x, t, i, e. conjs.
Qed.

Lemma from_match_VREAD o p kind r :
  from_match o (re_match _VREAD_PATH_REGEX p) kind = Some r <->
  exists t i v,
    version_path o p t i v
    /\ r = mkInteractionInfo (Some t) (Some kind) (Some i) (Some v).
Proof.
  split.
  - intros H. apply from_match_Some in H as (g & t & Hg & Ht & Hne & Ho & ->).
    apply VREAD_iff in Hg as (x & t' & i & v & e & -> & Hx & Ht' & Hi & Hv & He & ->).
    simpl in Ht. injection Ht as ->.
    exists t, i, v. split; [exists x, e; conjs | reflexivity].
  - intros (t & i & v & (x & e & -> & Hx & Ht & Hne & Ho & Hi & Hv & He) & ->).
    rewrite (from_match_intro o _ kind [("version_id", v); ("resource_id", i); ("resource_type", t)] t);
      [reflexivity | | reflexivity | assumption | assumption].
    apply VREAD_iff. exists x, t, i, v, e. conjs.
Qed.

Lemma from_match_CREATE o p kind r :
  from_match o (re_match _CREATE_PATH_REGEX p) kind = Some r <->
  exists t,
    type_path o EmptyString p t
    /\ r = mkInteractionInfo (Some t) (Some kind) None None.
Proof.
  split.
  - intros H. apply from_match_Some in H as (g & t & Hg & Ht & Hne & Ho & ->).
    apply CREATE_iff in Hg as (x & t' & e & -> & Hx & Ht' & He & ->).
    simpl in Ht. injection Ht as ->.
    exists t. split; [exists x, e; conjs | reflexivity].
  - intros (t & (x & e & -> & Hx & Ht & Hne & Ho & He) & ->).
    rewrite (from_match_intro o _ kind [("resource_type", t)] t);
      [reflexivity | | reflexivity | assumption | assumption].
    apply CREATE_iff. exists x, t, e. conjs.
Qed.

Lemma from_match_SEARCH_POST o p kind r :
  from_match o (re_match _SEARCH_TYPE_POST_PATH_REGEX p) kind = Some r <->
  exists t,
    type_path o "/_search" p t
    /\ r = mkInteractionInfo (Some t) (Some kind) None None.
Proof.
  split.
  - intros H. apply from_match_Some in H as (g & t & Hg & Ht & Hne & Ho & ->).
    apply SEARCH_POST_iff in Hg as (x & t' & e & -> & Hx & Ht' & He & ->).
    simpl in Ht. injection Ht as ->.
    exists t. split; [exists x, e; conjs | reflexivity].
  - intros (t & (x & e & -> & Hx & Ht & Hne & Ho & He) & ->).
    rewrite (from_match_intro o _ kind [("resource_type", t)] t);
      [reflexivity | | reflexivity | assumption | assumption].
    apply SEARCH_POST_iff. exists x, t, e. conjs.
Qed.

Lemma METADATA_None_iff p :
  re_match _METADATA_PATH_REGEX p = None <-> ~ first_line_has_metadata p.
Proof.
  split.
  - intros H (x & y & -> & Hx).
    destruct (METADATA_complete x y Hx) as [g Hg]. congruence.
  - intros H. destruct (re_match _METADATA_PATH_REGEX p) as [g|] eqn:E; auto.
    exfalso. apply H. apply METADATA_shape in E as (x & y & Hp & Hx).
    exists x, y; auto.
Qed.

Lemma or_else_Some a b r :
  or_else a b = r <-> a = Some r \/ (a = None /\ b = r).
Proof. destruct a; simpl; split; intuition congruence. Qed.

Lemma from_match_has_kind o m kind r :
  from_match o m kind = Some r ->
  interaction_type r = Some kind /\ resource_type r <> None.
Proof.
  intros H. apply from_match_Some in H as (g & t & _ & _ & _ & _ & ->).
  split; [reflexivity | discriminate].
Qed.

(** X1.  A request is classified as capabilities exactly when the method is
    GET and the path contains /metadata with no line feed before it. *)
Theorem capabilities_exact (o : string -> bool) (m p : string) :
  classify o m p = Ok capabilities_info
  <-> m = "GET" /\ first_line_has_metadata p.
Proof.
  split.
  - intros H.
    assert (Hfm : forall mm kind b,
               b <> capabilities_info ->
               or_else (from_match o mm kind) b <> capabilities_info).
    { intros mm kind b Hb Heq. apply or_else_Some in Heq as [Heq | [_ Heq]]; auto.
      apply from_match_has_kind in Heq as [_ Heq]. apply Heq. reflexivity. }
    assert (He : empty <> capabilities_info) by discriminate.
    destruct (method_cases m) as [-> | [-> | [-> | [-> | [-> | Hm]]]]].
    + split; [reflexivity |]. rewrite classify_GET in H.
      destruct (re_match _METADATA_PATH_REGEX p) as [g|] eqn:E.
      * apply METADATA_shape in E as (x & y & Hp & Hx). exists x, y; auto.
      * injection H as H. exfalso. revert H. repeat apply Hfm. exact He.
    + rewrite classify_POST in H. injection H as H.
      exfalso. revert H. repeat apply Hfm. exact He.
    + rewrite classify_PUT in H. injection H as H.
      exfalso. revert H. repeat apply Hfm. exact He.
    + rewrite classify_PATCH in H. injection H as H.
      exfalso. revert H. repeat apply Hfm. exact He.
    + rewrite classify_DELETE in H. injection H as H.
      exfalso. revert H. repeat apply Hfm. exact He.
    + destruct Hm as (H1 & H2 & H3 & H4 & H5).
      rewrite classify_other in H by auto. discriminate H.
  - intros [-> (x & y & -> & Hx)]. rewrite classify_GET.
    destruct (METADATA_complete x y Hx) as [g ->]. reflexivity.
Qed.

(** X2.  PUT, PATCH and DELETE are classified as update, patch and delete
    of resource [t] with id [i] exactly when the path ends with the
    segments [t] and [i] (up to a final line feed), nothing before them is
    a line feed, [t] is a non-empty run of [[A-z]] accepted by the oracle
    and [i] is 1 to 64 characters of [[A-Za-z0-9.-]]. *)
Theorem instance_write_exact (o : string -> bool) (p t i : string) :
  (classify o "PUT" p = Ok (mkInteractionInfo (Some t) (Some update) (Some i) None)
   <-> instance_path o p t i)
  /\ (classify o "PATCH" p = Ok (mkInteractionInfo (Some t) (Some patch) (Some i) None)
      <-> instance_path o p t i)
  /\ (classify o "DELETE" p = Ok (mkInteractionInfo (Some t) (Some delete) (Some i) None)
      <-> instance_path o p t i).
Proof.
  rewrite classify_PUT, classify_PATCH, classify_DELETE.
  change _UPDATE_PATH_REGEX with _READ_PATH_REGEX.
  change _PATCH_PATH_REGEX with _READ_PATH_REGEX.
  change _DELETE_PATH_REGEX with _READ_PATH_REGEX.
  assert (H : forall kind,
             Ok (or_else (from_match o (re_match _READ_PATH_REGEX p) kind) empty)
             = Ok (mkInteractionInfo (Some t) (Some kind) (Some i) None)
             <-> instance_path o p t i).
  { intros kind. split.
    - intros [= H]. apply or_else_Some in H as [H | [_ H]]; [|discriminate H].
      apply from_match_READ in H as (t' & i' & Hp & [= <- <-]). exact Hp.
    - intros Hp. f_equal. apply or_else_Some. left.
      apply from_match_READ. exists t, i. auto. }
  repeat split; apply H.
Qed.

(** X3.  POST is classified as create of resource type [t] exactly when the
    path ends with the segment [t] (up to a final line feed), nothing
    before it is a line feed, and [t] is a non-empty run of [[A-z]] accepted
    by the oracle. *)
Theorem create_exact (o : string -> bool) (p t : string) :
  classify o "POST" p = Ok (mkInteractionInfo (Some t) (Some create) None None)
  <-> type_path o EmptyString p t.
Proof.
  rewrite classify_POST. split.
  - intros [= H]. apply or_else_Some in H as [H | [_ H]].
    + apply from_match_CREATE in H as (t' & Hp & [= <-]). exact Hp.
    + apply or_else_Some in H as [H | [_ H]]; [|discriminate H].
      apply from_match_has_kind in H as [[= H] _].
  - intros Hp. f_equal. apply or_else_Some. left.
    apply from_match_CREATE. exists t. auto.
Qed.

(** What the create pattern captures on a path of the POST search shape. *)
Lemma CREATE_on_search_path x t e :
  no_line_feed x = true -> type_segment t -> at_end e = true ->
  re_match _CREATE_PATH_REGEX (x ++ "/" ++ t ++ "/_search" ++ e)
  = Some [("resource_type", "_search")].
Proof.
  intros Hx Ht He. apply CREATE_iff.
  exists (x ++ "/" ++ t), "_search", e. conjs.
  - norm_app. reflexivity.
  - now rewrite !no_line_feed_app, Hx, (type_segment_no_line_feed _ Ht).
  - reflexivity.
Qed.

(** X4.  POST is classified as a search of resource type [t] exactly when
    the oracle rejects the name _search (which the create matcher, tried
    first, captures as its resource type) and the path ends with the segment
    [t] followed by /_search (up to a final line feed), with [t] a non-empty
    run of [[A-z]] accepted by the oracle. *)
Theorem search_post_exact (o : string -> bool) (p t : string) :
  classify o "POST" p = Ok (mkInteractionInfo (Some t) (Some search_type) None None)
  <-> o "_search" = false /\ type_path o "/_search" p t.
Proof.
  rewrite classify_POST. split.
  - intros [= H]. apply or_else_Some in H as [H | [Hc H]].
    + apply from_match_has_kind in H as [[= H] _].
    + apply or_else_Some in H as [H | [_ H]]; [|discriminate H].
      apply from_match_SEARCH_POST in H as (t' & Hp & [= <-]).
      split; [|exact Hp].
      destruct Hp as (x & e & -> & Hx & Ht & _ & _ & He).
      rewrite (CREATE_on_search_path x t e Hx Ht He) in Hc.
      unfold from_match in Hc. cbn in Hc.
      destruct (o "_search"); [discriminate Hc | reflexivity].
  - intros [Hs Hp]. f_equal. apply or_else_Some. right. split.
    + destruct Hp as (x & e & -> & Hx & Ht & _ & _ & He).
      rewrite (CREATE_on_search_path x t e Hx Ht He).
      unfold from_match. cbn. rewrite Hs. reflexivity.
    + apply or_else_Some. left. apply from_match_SEARCH_POST. exists t. auto.
Qed.

(** X5.  GET is classified as read of resource [t] with id [i] exactly when
    the path does not contain /metadata on its first line and ends with the
    segments [t] and [i] as for update. *)
Theorem read_exact (o : string -> bool) (p t i : string) :
  classify o "GET" p = Ok (mkInteractionInfo (Some t) (Some read) (Some i) None)
  <-> ~ first_line_has_metadata p /\ instance_path o p t i.
Proof.
  rewrite classify_GET. split.
  - intros H.
    destruct (re_match _METADATA_PATH_REGEX p) as [g|] eqn:E; [discriminate H |].
    apply METADATA_None_iff in E. split; [exact E |].
    injection H as H. apply or_else_Some in H as [H | [_ H]].
    + apply from_match_READ in H as (t' & i' & Hp & [= <- <-]). exact Hp.
    + apply or_else_Some in H as [H | [_ H]].
      * apply from_match_has_kind in H as [[= H] _].
      * apply or_else_Some in H as [H | [_ H]]; [|discriminate H].
        apply from_match_has_kind in H as [[= H] _].
  - intros [Hm Hp]. apply METADATA_None_iff in Hm. rewrite Hm. f_equal.
    apply or_else_Some. left. apply from_match_READ. exists t, i. auto.
Qed.

(** What the read pattern captures on a path of the vread shape. *)
Lemma READ_on_version_path x t i v e :
  no_line_feed x = true -> type_segment t -> id_segment i -> id_segment v ->
  at_end e = true ->
  re_match _READ_PATH_REGEX (x ++ "/" ++ t ++ "/" ++ i ++ "/_history/" ++ v ++ e)
  = Some [("resource_id", v); ("resource_type", "_history")].
Proof.
  intros Hx Ht Hi Hv He. apply READ_iff.
  exists (x ++ "/" ++ t ++ "/" ++ i), "_history", v, e. conjs.
  - norm_app. reflexivity.
  - now rewrite !no_line_feed_app, Hx, (type_segment_no_line_feed _ Ht),
      (id_segment_no_line_feed _ Hi).
  - reflexivity.
Qed.

(** X6.  GET is classified as vread of resource [t], id [i], version [v]
    exactly when the path does not contain /metadata on its first line, the
    oracle rejects the name _history (which the read matcher, tried first,
    captures as its resource type) and the path ends with
    [t]/[i]/_history/[v] (up to a final line feed), with [t] a non-empty run
    of [[A-z]] accepted by the oracle and [i], [v] identifiers. *)
Theorem vread_exact (o : string -> bool) (p t i v : string) :
  classify o "GET" p
  = Ok (mkInteractionInfo (Some t) (Some vread) (Some i) (Some v))
  <-> ~ first_line_has_metadata p /\ o "_history" = false
      /\ version_path o p t i v.
Proof.
  rewrite classify_GET. split.
  - intros H.
    destruct (re_match _METADATA_PATH_REGEX p) as [g|] eqn:E; [discriminate H |].
    apply METADATA_None_iff in E. split; [exact E |].
    injection H as H. apply or_else_Some in H as [H | [Hr H]].
    + apply from_match_has_kind in H as [[= H] _].
    + apply or_else_Some in H as [H | [_ H]].
      * apply from_match_VREAD in H as (t' & i' & v' & Hp & [= <- <- <-]).
        split; [|exact Hp].
        destruct Hp as (x & e & -> & Hx & Ht & _ & _ & Hi & Hv & He).
        rewrite (READ_on_version_path x t i v e Hx Ht Hi Hv He) in Hr.
        unfold from_match in Hr. cbn in Hr.
        destruct (o "_history"); [discriminate Hr | reflexivity].
      * apply or_else_Some in H as [H | [_ H]]; [|discriminate H].
        apply from_match_has_kind in H as [[= H] _].
  - intros (Hm & Hh & Hp). apply METADATA_None_iff in Hm. rewrite Hm. f_equal.
    apply or_else_Some. right. split.
    + destruct Hp as (x & e & -> & Hx & Ht & _ & _ & Hi & Hv & He).
      rewrite (READ_on_version_path x t i v e Hx Ht Hi Hv He).
      unfold from_match. cbn. rewrite Hh. reflexivity.
    + apply or_else_Some. left. apply from_match_VREAD. exists t, i, v. auto.
Qed.

(* ================================================================= *)
(** * The form of a result, by method and kind *)

Lemma or_else_classified m a b :
  (forall r, a = Some r -> classified m r) -> classified m b ->
  classified m (or_else a b).
Proof. destruct a; simpl; auto. Qed.

Lemma classify_table o m p r :
  classify o m p = Ok r -> classified m r.
Proof.
  intros H.
  destruct (method_cases m) as [-> | [-> | [-> | [-> | [-> | Hm]]]]].
  - rewrite classify_GET in H. injection H as <-.
    destruct (re_match _METADATA_PATH_REGEX p); [constructor |].
    apply or_else_classified.
    { intros r H. apply from_match_READ in H as (t & i & _ & ->). constructor. }
    apply or_else_classified.
    { intros r H. apply from_match_VREAD in H as (t & i & v & _ & ->). constructor. }
    apply or_else_classified; [|constructor].
    intros r H. apply from_match_CREATE in H as (t & _ & ->). constructor.
  - rewrite classify_POST in H. injection H as <-.
    apply or_else_classified.
    { intros r H. apply from_match_CREATE in H as (t & _ & ->). constructor. }
    apply or_else_classified; [|constructor].
    intros r H. apply from_match_SEARCH_POST in H as (t & _ & ->). constructor.
  - rewrite classify_PUT in H. injection H as <-.
    apply or_else_classified; [|constructor].
    intros r H. apply from_match_READ in H as (t & i & _ & ->). constructor.
  - rewrite classify_PATCH in H. injection H as <-.
    apply or_else_classified; [|constructor].
    intros r H. apply from_match_READ in H as (t & i & _ & ->). constructor.
  - rewrite classify_DELETE in H. injection H as <-.
    apply or_else_classified; [|constructor].
    intros r H. apply from_match_READ in H as (t & i & _ & ->). constructor.
  - destruct Hm as (H1 & H2 & H3 & H4 & H5).
    rewrite classify_other in H by auto. injection H as <-. constructor.
Qed.

(** X7.  In every result the interaction type fixes the method and the
    fields: a result without interaction type is the empty result;
    otherwise the method is one under which that type is reported
    (capabilities, read, vread: GET; create: POST; search-type: GET or POST;
    update: PUT; patch: PATCH; delete: DELETE), resource_type is set unless
    the type is capabilities, resource_id is set exactly for read, vread,
    update, patch and delete, and version_id exactly for vread. *)
Theorem result_shape_by_kind (o : string -> bool) (m p : string)
        (r : InteractionInfo) :
  classify o m p = Ok r ->
  match interaction_type r with
  | None => r = empty
  | Some k =>
      In m (methods_of k)
      /\ is_set (resource_type r) = negb (is_capabilities k)
      /\ is_set (resource_id r) = instance_level k
      /\ is_set (version_id r) = is_vread k
  end.
Proof.
  intros H. apply classify_table in H.
  destruct H; simpl; auto.
Qed.

Lemma result_shape_by_kind_witness :
  let r := mkInteractionInfo (Some "Patient") (Some vread) (Some "7") (Some "2") in
  classify fhir "GET" "/Patient/7/_history/2" = Ok r
  /\ In "GET" (methods_of vread)
  /\ is_set (resource_type r) = negb (is_capabilities vread)
  /\ is_set (resource_id r) = instance_level vread
  /\ is_set (version_id r) = is_vread vread.
Proof.
  cbv zeta. split; [reflexivity |].
  exact (result_shape_by_kind fhir "GET" "/Patient/7/_history/2" _ eq_refl).
Defined.

(* ================================================================= *)
(** * An oracle that knows no resource type *)

(** X9.  When the oracle rejects every name (an empty table of resource
    types), a request is classified as capabilities if it is a GET whose
    path contains /metadata on its first line, and as the empty result
    otherwise. *)
Theorem rejecting_oracle (o : string -> bool) (m p : string) :
  (forall s, o s = false) ->
  (m = "GET" /\ first_line_has_metadata p
   /\ classify o m p = Ok capabilities_info)
  \/ (~ (m = "GET" /\ first_line_has_metadata p)
      /\ classify o m p = Ok empty).
Proof.
  intros Ho.
  assert (Hfm : forall R kind, from_match o (re_match R p) kind = None).
  { intros R kind. apply from_match_rejected. intros t _. apply Ho. }
  destruct (method_cases m) as [-> | [-> | [-> | [-> | [-> | Hm]]]]].
  - rewrite classify_GET, !Hfm. cbn [or_else].
    destruct (re_match _METADATA_PATH_REGEX p) as [g|] eqn:E.
    + left. conjs. apply METADATA_shape in E as (x & y & Hp & Hx).
      exists x, y; auto.
    + right. split; [|reflexivity]. intros [_ H].
      apply METADATA_None_iff in E. auto.
  - right. rewrite classify_POST, !Hfm. split; [|reflexivity].
    intros [H _]; discriminate H.
  - right. rewrite classify_PUT, !Hfm. split; [|reflexivity].
    intros [H _]; discriminate H.
  - right. rewrite classify_PATCH, !Hfm. split; [|reflexivity].
    intros [H _]; discriminate H.
  - right. rewrite classify_DELETE, !Hfm. split; [|reflexivity].
    intros [H _]; discriminate H.
  - right. destruct Hm as (H1 & H2 & H3 & H4 & H5).
    rewrite classify_other by auto. split; [|reflexivity].
    intros [H _]; contradiction.
Qed.

Lemma rejecting_oracle_witness :
  (forall s, oracle_of [] s = false)
  /\ classify (oracle_of []) "GET" "/Patient/7" = Ok empty
  /\ classify (oracle_of []) "GET" "/fhir/metadata" = Ok capabilities_info.
Proof.
  split; [reflexivity |]. split.
  - destruct (rejecting_oracle (oracle_of []) "GET" "/Patient/7")
      as [(_ & _ & H) | (_ & H)]; [reflexivity | discriminate H | exact H].
  - destruct (rejecting_oracle (oracle_of []) "GET" "/fhir/metadata")
      as [(_ & _ & H) | (_ & H)]; [reflexivity | exact H | discriminate H].
Defined.

(* ================================================================= *)
(** * Mount paths, for the methods that write *)

Lemma instance_path_prefix o x p t i :
  no_line_feed x = true -> instance_path o p t i -> instance_path o (x ++ p) t i.
Proof.
  intros Hx (y & e & -> & Hy & H). exists (x ++ y), e.
  split; [now rewrite append_assoc |].
  split; [now rewrite no_line_feed_app, Hx, Hy | exact H].
Qed.

Lemma type_path_prefix o suffix x p t :
  no_line_feed x = true ->
  type_path o suffix p t -> type_path o suffix (x ++ p) t.
Proof.
  intros Hx (y & e & -> & Hy & H). exists (x ++ y), e.
  split; [now rewrite append_assoc |].
  split; [now rewrite no_line_feed_app, Hx, Hy | exact H].
Qed.

(** X10.  For every method other than GET, a path classified as a
    non-empty result keeps that result under any prefix without line
    feed. *)
Theorem mount_prefix_non_get (o : string -> bool) (m p prefix : string)
        (r : InteractionInfo) :
  m <> "GET" ->
  classify o m p = Ok r ->
  r <> empty ->
  no_line_feed prefix = true ->
  classify o m (prefix ++ p) = Ok r.
Proof.
  intros Hm Hr Hne Hx.
  assert (Hread : forall kind,
             or_else (from_match o (re_match _READ_PATH_REGEX p) kind) empty = r ->
             or_else (from_match o (re_match _READ_PATH_REGEX (prefix ++ p)) kind)
               empty = r).
  { intros kind H. apply or_else_Some in H as [H | [_ H]]; [|congruence].
    apply or_else_Some. left.
    apply from_match_READ in H as (t & i & Hp & ->).
    apply from_match_READ. exists t, i.
    split; [apply instance_path_prefix; auto | reflexivity]. }
  destruct (method_cases m) as [-> | [-> | [-> | [-> | [-> | H]]]]].
  - contradiction.
  - rewrite classify_POST in Hr |- *. injection Hr as Hr. f_equal.
    apply or_else_Some in Hr as [Hr | [Hc Hr]].
    + apply or_else_Some. left.
      apply from_match_CREATE in Hr as (t & Hp & ->).
      apply from_match_CREATE. exists t.
      split; [apply type_path_prefix; auto | reflexivity].
    + apply or_else_Some in Hr as [Hr | [_ Hr]]; [|congruence].
      apply from_match_SEARCH_POST in Hr as (t & Hp & ->).
      apply or_else_Some. right. split.
      * destruct Hp as (y & e & -> & Hy & Ht & _ & _ & He).
        rewrite (CREATE_on_search_path y t e Hy Ht He) in Hc.
        rewrite <- append_assoc.
        rewrite (CREATE_on_search_path (prefix ++ y) t e); auto.
        now rewrite no_line_feed_app, Hx, Hy.
      * apply or_else_Some. left. apply from_match_SEARCH_POST. exists t.
        split; [apply type_path_prefix; auto | reflexivity].
  - rewrite classify_PUT in Hr |- *. injection Hr as Hr. f_equal. now apply Hread.
  - rewrite classify_PATCH in Hr |- *. injection Hr as Hr. f_equal. now apply Hread.
  - rewrite classify_DELETE in Hr |- *. injection Hr as Hr. f_equal. now apply Hread.
  - destruct H as (H1 & H2 & H3 & H4 & H5).
    rewrite classify_other in Hr by auto. injection Hr as <-. contradiction.
Qed.

Lemma mount_prefix_non_get_witness :
  "POST" <> "GET"
  /\ classify fhir "POST" "/Patient/_search" = Ok search_Patient
  /\ search_Patient <> empty
  /\ no_line_feed "/subapi" = true
  /\ classify fhir "POST" ("/subapi" ++ "/Patient/_search") = Ok search_Patient.
Proof.
  split; [discriminate |]. split; [reflexivity |]. split; [discriminate |].
  split; [reflexivity |].
  apply (mount_prefix_non_get fhir "POST" "/Patient/_search" "/subapi");
    [discriminate | reflexivity | discriminate | reflexivity].
Defined.

(* ================================================================= *)
(** * Paths given by their segments *)

Lemma METADATA_unfold p :
  re_match _METADATA_PATH_REGEX p = min_repeat Dot p meta_k.
Proof. reflexivity. Qed.

Lemma meta_k_slash s :
  strip_prefix "metadata" s = None -> meta_k (String slash s) = None.
Proof.
  intros H. unfold meta_k.
  change (strip_prefix "/metadata" (String slash s))
    with (strip_prefix "metadata" s).
  rewrite H. reflexivity.
Qed.

Lemma meta_k_other c s :
  negb (Ascii.eqb c slash) = true -> meta_k (String c s) = None.
Proof.
  intros H. unfold meta_k.
  change (strip_prefix "/metadata" (String c s))
    with (if Ascii.eqb "/" c then strip_prefix "metadata" s else None).
  destruct (Ascii.eqb_spec "/" c) as [<- | _]; [discriminate H | reflexivity].
Qed.

Lemma meta_skip a b :
  no_slash a = true -> no_line_feed a = true ->
  min_repeat Dot (a ++ b) meta_k = min_repeat Dot b meta_k.
Proof.
  induction a as [|c a IH]; simpl; intros Hs Hl; [reflexivity |].
  apply andb_true_iff in Hs as [Hc Hs]. apply andb_true_iff in Hl as [Hd Hl].
  rewrite (meta_k_other c _ Hc), Hd. auto.
Qed.

Lemma strip_prefix_segment l a b :
  strip_prefix l a = None -> no_slash l = true ->
  b = EmptyString \/ (exists b', b = String slash b') ->
  strip_prefix l (a ++ b) = None.
Proof.
  revert a. induction l as [|c l IH]; intros a H Hl Hb; [discriminate H |].
  simpl in Hl. apply andb_true_iff in Hl as [Hc Hl].
  destruct a as [|d a]; simpl in *.
  - destruct Hb as [-> | [b' ->]]; [reflexivity |].
    apply negb_true_iff in Hc. rewrite Hc. reflexivity.
  - destruct (Ascii.eqb c d); [auto | reflexivity].
Qed.

Lemma path_of_head segs :
  path_of segs = EmptyString \/ exists b, path_of segs = String slash b.
Proof. destruct segs; simpl; eauto. Qed.

(** /metadata can only be found at the start of a segment. *)
Lemma METADATA_segments segs :
  Forall plain_segment segs ->
  re_match _METADATA_PATH_REGEX (path_of segs) = None.
Proof.
  rewrite METADATA_unfold.
  induction 1 as [|s segs (Hs & Hl & Hm) _ IH]; [reflexivity |].
  change (path_of (s :: segs)) with (String slash (s ++ path_of segs)).
  cbn [min_repeat].
  rewrite (meta_k_slash _ (strip_prefix_segment "metadata" s (path_of segs) Hm
                             eq_refl (path_of_head segs))).
  cbn [in_charset]. simpl negb. rewrite meta_skip by assumption. exact IH.
Qed.

Lemma test_id_plain id : test_id id -> plain_segment id.
Proof.
  intros [Hi Hm]. repeat split;
    auto using id_segment_no_slash, id_segment_no_line_feed.
Qed.

(** The read pattern on a path whose last two segments are known. *)
Lemma READ_last_two A s1 s2 p t i :
  no_slash s1 = true -> no_slash s2 = true ->
  instance_path p (A ++ "/" ++ s1 ++ "/" ++ s2) t i ->
  t = s1.
Proof.
  intros H1 H2 (x & e & Hp & _ & Ht & _ & _ & Hi & He).
  replace (A ++ "/" ++ s1 ++ "/" ++ s2) with ((A ++ "/" ++ s1) ++ "/" ++ s2)
    in Hp by (norm_app; reflexivity).
  replace (x ++ "/" ++ t ++ "/" ++ i ++ e) with ((x ++ "/" ++ t) ++ "/" ++ (i ++ e))
    in Hp by (norm_app; reflexivity).
  apply split_last_slash in Hp as [Hp _]; auto;
    [| apply no_slash_tail; auto using id_segment_no_slash].
  apply split_last_slash in Hp as [_ Hp]; auto using type_segment_no_slash.
Qed.

(** The read matcher declines when the oracle rejects the segment before
    the last. *)
Lemma from_match_READ_rejected o A s1 s2 kind :
  no_slash s1 = true -> no_slash s2 = true -> o s1 = false ->
  from_match o (re_match _READ_PATH_REGEX (A ++ "/" ++ s1 ++ "/" ++ s2)) kind
  = None.
Proof.
  intros H1 H2 Ho.
  destruct (from_match o _ kind) as [r|] eqn:E; [|reflexivity].
  apply from_match_READ in E as (t & i & Hp & _).
  pose proof (READ_last_two _ _ _ _ _ _ H1 H2 Hp) as ->.
  destruct Hp as (_ & _ & _ & _ & _ & _ & Ho' & _). congruence.
Qed.

(** The vread pattern needs _history before the last segment. *)
Lemma VREAD_needs_history A s1 s2 :
  no_slash s1 = true -> no_slash s2 = true -> s1 <> "_history" ->
  re_match _VREAD_PATH_REGEX (A ++ "/" ++ s1 ++ "/" ++ s2) = None.
Proof.
  intros H1 H2 Hne.
  destruct (re_match _VREAD_PATH_REGEX _) as [g|] eqn:E; [|reflexivity].
  exfalso. apply Hne.
  apply VREAD_iff in E as (x & t & i & v & e & Hp & _ & _ & _ & Hv & He & _).
  replace (A ++ "/" ++ s1 ++ "/" ++ s2) with ((A ++ "/" ++ s1) ++ "/" ++ s2)
    in Hp by (norm_app; reflexivity).
  replace (x ++ "/" ++ t ++ "/" ++ i ++ "/_history/" ++ v ++ e)
    with (((x ++ "/" ++ t ++ "/" ++ i) ++ "/" ++ "_history") ++ "/" ++ (v ++ e))
    in Hp by (norm_app; reflexivity).
  apply split_last_slash in Hp as [Hp _]; auto;
    [| apply no_slash_tail; auto using id_segment_no_slash].
  apply split_last_slash in Hp as [_ Hp]; auto.
Qed.

(** The create pattern (also the GET search pattern) captures the last
    segment; the matcher declines when the oracle rejects it. *)
Lemma from_match_CREATE_rejected o A s kind :
  no_slash s = true -> no_line_feed s = true -> o s = false ->
  from_match o (re_match _CREATE_PATH_REGEX (A ++ "/" ++ s)) kind = None.
Proof.
  intros H1 H2 Ho.
  destruct (from_match o _ kind) as [r|] eqn:E; [|reflexivity].
  apply from_match_CREATE in E as (t & (x & e & Hp & _ & Ht & _ & Ho' & He) & _).
  apply split_last_slash in Hp as [_ Hp]; auto;
    [| apply no_slash_tail; auto using type_segment_no_slash].
  simpl in Hp.
  assert (Hs : s ++ EmptyString = t ++ e) by (rewrite append_nil_r; exact Hp).
  apply tail_unique in Hs as [-> _];
    auto using type_segment_no_line_feed. congruence.
Qed.

(** The POST search pattern needs _search as the last segment. *)
Lemma SEARCH_POST_needs_search A s :
  no_slash s = true -> no_line_feed s = true -> s <> "_search" ->
  re_match _SEARCH_TYPE_POST_PATH_REGEX (A ++ "/" ++ s) = None.
Proof.
  intros H1 H2 Hne.
  destruct (re_match _SEARCH_TYPE_POST_PATH_REGEX _) as [g|] eqn:E; [|reflexivity].
  exfalso. apply Hne.
  apply SEARCH_POST_iff in E as (x & t & e & Hp & _ & _ & He & _).
  replace (x ++ "/" ++ t ++ "/_search" ++ e)
    with ((x ++ "/" ++ t) ++ "/" ++ ("_search" ++ e)) in Hp
    by (norm_app; reflexivity).
  apply split_last_slash in Hp as [_ Hp]; auto;
    [| apply no_slash_tail; [reflexivity | assumption]].
  assert (Hs : s ++ EmptyString = "_search" ++ e) by (rewrite append_nil_r; exact Hp).
  apply tail_unique in Hs as [-> _]; auto.
Qed.

Lemma path_of_app a b : path_of (a ++ b) = path_of a ++ path_of b.
Proof.
  induction a as [|s a IH]; simpl; [reflexivity |].
  rewrite IH, append_assoc. reflexivity.
Qed.

Lemma path_of_no_line_feed segs :
  Forall plain_segment segs -> no_line_feed (path_of segs) = true.
Proof.
  induction 1 as [|s segs (_ & Hl & _) _ IH]; [reflexivity |].
  change (path_of (s :: segs)) with (String slash (s ++ path_of segs)).
  unfold no_line_feed in *. cbn [all_chars].
  rewrite all_chars_app, Hl, IH. reflexivity.
Qed.

Ltac plain := repeat split; reflexivity.

(* ================================================================= *)
(** * The test of the classifier, for every identifier *)

Section Tests.
Variable o : string -> bool.
Variables id vid : string.
Variable ms : list string.

Hypothesis o_Patient : o "Patient" = true.
Hypothesis o_FakeResource : o "FakeResource" = false.
Hypothesis o_extra : o "extra" = false.
Hypothesis o__history : o "_history" = false.
Hypothesis o__search : o "_search" = false.
Hypothesis o_id : o id = false.
Hypothesis id_ok : test_id id.
Hypothesis vid_ok : test_id vid.
Hypothesis ms_plain : Forall plain_segment ms.

Let M : string := path_of ms.

Lemma M_no_line_feed : no_line_feed M = true.
Proof. apply path_of_no_line_feed, ms_plain. Qed.

Lemma no_metadata segs p :
  Forall plain_segment segs -> p = M ++ path_of segs ->
  re_match _METADATA_PATH_REGEX p = None.
Proof.
  intros H ->. unfold M. rewrite <- path_of_app.
  apply METADATA_segments. apply Forall_app. auto.
Qed.

Lemma id_plain : plain_segment id.
Proof. apply test_id_plain, id_ok. Qed.

Lemma vid_plain : plain_segment vid.
Proof. apply test_id_plain, vid_ok. Qed.

Ltac segs_plain :=
  repeat (apply Forall_cons;
          [first [apply id_plain | apply vid_plain | plain] |]);
  apply Forall_nil.

Lemma id_not_history : id <> "_history".
Proof.
  intros H. destruct id_ok as [[Hi _] _]. rewrite H in Hi. discriminate Hi.
Qed.

Lemma Patient_id_path :
  instance_path o (M ++ "/Patient/" ++ id) "Patient" id.
Proof.
  exists M, EmptyString. destruct id_ok as [Hi _].
  split; [simpl; now rewrite append_nil_r |].
  split; [apply M_no_line_feed |]. conjs; try reflexivity. discriminate.
Qed.

Lemma case_read :
  classify o "GET" (M ++ "/Patient/" ++ id)
  = Ok (mkInteractionInfo (Some "Patient") (Some read) (Some id) None).
Proof.
  rewrite classify_GET.
  rewrite (no_metadata ["Patient"; id]);
    [| segs_plain
     | simpl; now rewrite append_nil_r].
  f_equal. apply or_else_Some. left. apply from_match_READ.
  exists "Patient", id. split; [apply Patient_id_path | reflexivity].
Qed.

Lemma case_write m kind :
  classify o m (M ++ "/Patient/" ++ id)
  = Ok (or_else (from_match o (re_match _READ_PATH_REGEX (M ++ "/Patient/" ++ id))
                   kind) empty) ->
  classify o m (M ++ "/Patient/" ++ id)
  = Ok (mkInteractionInfo (Some "Patient") (Some kind) (Some id) None).
Proof.
  intros ->. f_equal. apply or_else_Some. left. apply from_match_READ.
  exists "Patient", id. split; [apply Patient_id_path | reflexivity].
Qed.

Lemma case_vread :
  classify o "GET" (M ++ "/Patient/" ++ id ++ "/_history/" ++ vid)
  = Ok (mkInteractionInfo (Some "Patient") (Some vread) (Some id) (Some vid)).
Proof.
  destruct id_ok as [Hi _], vid_ok as [Hv _].
  assert (Hp : M ++ "/Patient/" ++ id ++ "/_history/" ++ vid
               = M ++ "/" ++ "Patient" ++ "/" ++ id ++ "/_history/" ++ vid
                   ++ EmptyString)
    by (simpl; now rewrite append_nil_r).
  rewrite classify_GET.
  rewrite (no_metadata ["Patient"; id; "_history"; vid]);
    [| segs_plain
     | simpl; now rewrite append_nil_r].
  f_equal. apply or_else_Some. right. split.
  - rewrite Hp, (READ_on_version_path M "Patient" id vid EmptyString);
      auto using M_no_line_feed; try reflexivity.
    unfold from_match. cbn. rewrite o__history. reflexivity.
  - apply or_else_Some. left. apply from_match_VREAD.
    exists "Patient", id, vid. split; [|reflexivity].
    exists M, EmptyString. split; [exact Hp |].
    split; [apply M_no_line_feed |]. conjs; try reflexivity. discriminate.
Qed.

Lemma case_FakeResource_id_GET :
  classify o "GET" (M ++ "/FakeResource/" ++ id) = Ok empty.
Proof.
  destruct id_plain as (Hs & Hl & _).
  assert (Hp : M ++ "/FakeResource/" ++ id = M ++ "/" ++ "FakeResource" ++ "/" ++ id)
    by reflexivity.
  rewrite classify_GET.
  rewrite (no_metadata ["FakeResource"; id]);
    [| segs_plain
     | simpl; now rewrite append_nil_r].
  rewrite Hp, from_match_READ_rejected by auto.
  rewrite VREAD_needs_history by (auto; discriminate).
  change _SEARCH_TYPE_GET_PATH_REGEX with _CREATE_PATH_REGEX.
  replace (M ++ "/" ++ "FakeResource" ++ "/" ++ id)
    with ((M ++ "/FakeResource") ++ "/" ++ id) by (norm_app; reflexivity).
  rewrite from_match_CREATE_rejected by auto. reflexivity.
Qed.

Lemma case_FakeResource_id_PUT :
  classify o "PUT" (M ++ "/FakeResource/" ++ id) = Ok empty.
Proof.
  destruct id_plain as (Hs & Hl & _).
  rewrite classify_PUT. change _UPDATE_PATH_REGEX with _READ_PATH_REGEX.
  change (M ++ "/FakeResource/" ++ id)
    with (M ++ "/" ++ "FakeResource" ++ "/" ++ id).
  rewrite from_match_READ_rejected by auto. reflexivity.
Qed.

Lemma case_id_extra_GET :
  classify o "GET" (M ++ "/Patient/" ++ id ++ "/extra") = Ok empty.
Proof.
  destruct id_plain as (Hs & Hl & _).
  rewrite classify_GET.
  rewrite (no_metadata ["Patient"; id; "extra"]);
    [| segs_plain
     | reflexivity].
  replace (M ++ "/Patient/" ++ id ++ "/extra")
    with ((M ++ "/Patient") ++ "/" ++ id ++ "/" ++ "extra")
    by (norm_app; reflexivity).
  rewrite from_match_READ_rejected by auto.
  rewrite VREAD_needs_history by (auto; apply id_not_history).
  change _SEARCH_TYPE_GET_PATH_REGEX with _CREATE_PATH_REGEX.
  replace ((M ++ "/Patient") ++ "/" ++ id ++ "/" ++ "extra")
    with ((M ++ "/Patient/" ++ id) ++ "/" ++ "extra")
    by (norm_app; reflexivity).
  rewrite from_match_CREATE_rejected by auto. reflexivity.
Qed.

Lemma case_id_extra_PUT :
  classify o "PUT" (M ++ "/FakeResource/" ++ id ++ "/extra") = Ok empty.
Proof.
  destruct id_plain as (Hs & Hl & _).
  rewrite classify_PUT. change _UPDATE_PATH_REGEX with _READ_PATH_REGEX.
  replace (M ++ "/FakeResource/" ++ id ++ "/extra")
    with ((M ++ "/FakeResource") ++ "/" ++ id ++ "/" ++ "extra")
    by (norm_app; reflexivity).
  rewrite from_match_READ_rejected by auto. reflexivity.
Qed.

End Tests.

Ltac eval_re_match :=
  repeat match goal with
  | |- context [re_match ?R ?p] =>
      let v := eval vm_compute in (re_match R p) in
      change (re_match R p) with v
  end.

(** X11.  The expectations of [test_parse_fhir_request] hold for every
    choice of the generated identifiers, under both mount paths: for every
    oracle that accepts Patient and rejects FakeResource, subapi, extra,
    _history, _search and the identifier itself, and for all identifiers of
    1 to 64 characters of [[A-Za-z0-9.-]] that do not start with the word
    metadata, each of the eighteen entries of [argvalues] is classified as
    the entry expects, with and without the /subapi prefix. *)
Theorem test_parse_fhir_request_passes (o : string -> bool) (id vid : string) :
  o "Patient" = true ->
  o "FakeResource" = false -> o "subapi" = false -> o "extra" = false ->
  o "_history" = false -> o "_search" = false -> o id = false ->
  test_id id -> test_id vid ->
  forall mount_path c,
    In mount_path mount_paths -> In c (argvalues id vid) ->
    test_parse_fhir_request o mount_path c.
Proof.
  intros HP HF Hsub Hex Hh Hs Hid Hi Hv mount_path c Hm Hc.
  assert (Hms : exists ms, mount_path = path_of ms /\ Forall plain_segment ms).
  { destruct Hm as [<- | [<- | []]];
      [exists [] | exists ["subapi"]]; split; try reflexivity;
      repeat (apply Forall_cons; [plain |]); apply Forall_nil. }
  unfold test_parse_fhir_request.
  simpl in Hc.
  repeat (destruct Hc as [<- | Hc]); [.. | destruct Hc];
    cbn [request_method case_path expected_result].
  (* the entries without identifier are evaluated *)
  1-2, 5-6, 11, 13-15:
    destruct Hm as [<- | [<- | []]];
    first [ rewrite classify_GET | rewrite classify_POST ];
    eval_re_match; unfold from_match; cbn;
    rewrite ?HP, ?HF, ?Hsub, ?Hex, ?Hh, ?Hs; cbn;
    rewrite ?HP, ?HF, ?Hsub, ?Hex, ?Hh, ?Hs; reflexivity.
  all: destruct Hms as (ms & -> & Hms).
  - apply (case_read o id ms); assumption.
  - apply (case_vread o id vid ms); assumption.
  - apply (case_write o id ms HP Hi Hms "PUT" update). apply classify_PUT.
  - apply (case_write o id ms HP Hi Hms "PATCH" patch). apply classify_PATCH.
  - apply (case_write o id ms HP Hi Hms "DELETE" delete). apply classify_DELETE.
  - apply (case_FakeResource_id_GET o id ms); assumption.
  - apply (case_id_extra_GET o id ms); assumption.
  - apply (case_FakeResource_id_PUT o id ms); assumption.
  - apply (case_id_extra_PUT o id ms); assumption.
  - apply classify_other; discriminate.
Qed.

Lemma test_parse_fhir_request_passes_witness :
  test_id "a1b2-c3" /\ test_id "v.2"
  /\ forall mount_path c,
       In mount_path mount_paths -> In c (argvalues "a1b2-c3" "v.2") ->
       test_parse_fhir_request fhir mount_path c.
Proof.
  assert (H1 : test_id "a1b2-c3") by (repeat split; simpl; lia).
  assert (H2 : test_id "v.2") by (repeat split; simpl; lia).
  split; [exact H1 |]. split; [exact H2 |].
  apply (test_parse_fhir_request_passes fhir "a1b2-c3" "v.2");
    first [reflexivity | assumption].
Defined.

(* ================================================================= *)
(** * Search by GET *)

(** X12.  GET is classified as a search of resource type [t] exactly when
    the path does not contain /metadata on its first line, it ends with the
    segment [t] (up to a final line feed) with [t] a non-empty run of
    [[A-z]] accepted by the oracle, and neither the read nor the vread
    reading of the path is accepted: the path is not an instance path and
    not a version path for the oracle. *)
Theorem search_get_exact (o : string -> bool) (p t : string) :
  classify o "GET" p
  = Ok (mkInteractionInfo (Some t) (Some search_type) None None)
  <-> ~ first_line_has_metadata p
      /\ type_path o EmptyString p t
      /\ ~ (exists t' i', instance_path o p t' i')
      /\ ~ (exists t' i' v', version_path o p t' i' v').
Proof.
  rewrite classify_GET.
  change _SEARCH_TYPE_GET_PATH_REGEX with _CREATE_PATH_REGEX.
  split.
  - intros H.
    destruct (re_match _METADATA_PATH_REGEX p) as [g|] eqn:E; [discriminate H |].
    apply METADATA_None_iff in E. split; [exact E |].
    injection H as H. apply or_else_Some in H as [H | [Hr H]].
    { apply from_match_has_kind in H as [[= H] _]. }
    apply or_else_Some in H as [H | [Hv H]].
    { apply from_match_has_kind in H as [[= H] _]. }
    apply or_else_Some in H as [H | [_ H]]; [|discriminate H].
    apply from_match_CREATE in H as (t' & Hp & [= <-]).
    split; [exact Hp |]. split.
    + intros (t' & i' & Hi).
      assert (Hs : from_match o (re_match _READ_PATH_REGEX p) read
                   = Some (mkInteractionInfo (Some t') (Some read) (Some i') None))
        by (apply from_match_READ; eauto).
      congruence.
    + intros (t' & i' & v' & Hi).
      assert (Hs : from_match o (re_match _VREAD_PATH_REGEX p) vread
                   = Some (mkInteractionInfo (Some t') (Some vread) (Some i')
                             (Some v')))
        by (apply from_match_VREAD; eauto).
      congruence.
  - intros (Hm & Hp & Hni & Hnv).
    apply METADATA_None_iff in Hm. rewrite Hm. f_equal.
    apply or_else_Some. right. split.
    { destruct (from_match o (re_match _READ_PATH_REGEX p) read) as [r|] eqn:E;
        [|reflexivity].
      exfalso. apply from_match_READ in E as (t' & i' & Hi & _). eauto. }
    apply or_else_Some. right. split.
    { destruct (from_match o (re_match _VREAD_PATH_REGEX p) vread) as [r|] eqn:E;
        [|reflexivity].
      exfalso. apply from_match_VREAD in E as (t' & i' & v' & Hi & _). eauto. }
    apply or_else_Some. left. apply from_match_CREATE. exists t. auto.
Qed.

(* ================================================================= *)
(** * The loop over the matchers *)

(** X13.  The loop stops at the first matcher that does not decline: when
    the matchers before [M] all return None, the outcome is that of [M] if
    [M] returns a result or raises, and the matchers after [M] are run only
    if [M] declines too. *)
Theorem first_match_first_result (ms1 ms2 : list PathMatcher) (M : PathMatcher)
        (m p : string) :
  (forall M', In M' ms1 -> match_ M' m p = Ok None) ->
  first_match (ms1 ++ M :: ms2) m p
  = match match_ M m p with
    | Ok (Some info) => Ok info
    | Ok None => first_match ms2 m p
    | Raise e => Raise e
    end.
Proof.
  induction ms1 as [|M1 ms1 IH]; intros H; cbn [app first_match].
  - destruct (match_ M m p) as [[info|]|e]; reflexivity.
  - rewrite (H M1 (or_introl eq_refl)). cbn [bind].
    apply IH. intros M' HM'. apply H. right. exact HM'.
Qed.

Lemma first_match_first_result_witness :
  let abstract := mkPathMatcher PathMatcher_match in
  (forall M', In M' [MetadataPathMatcher] ->
              match_ M' "GET" "/Patient/7" = Ok None)
  /\ match_ abstract "GET" "/Patient/7" = Raise NotImplementedError
  /\ first_match ([MetadataPathMatcher] ++ ReadPathMatcher fhir :: [abstract])
       "GET" "/Patient/7"
     = Ok (mkInteractionInfo (Some "Patient") (Some read) (Some "7") None).
Proof.
  cbv zeta.
  assert (H : forall M', In M' [MetadataPathMatcher] ->
                         match_ M' "GET" "/Patient/7" = Ok None)
    by (intros M' [<- | []]; reflexivity).
  split; [exact H |]. split; [reflexivity |].
  rewrite (first_match_first_result [MetadataPathMatcher]
             [mkPathMatcher PathMatcher_match] (ReadPathMatcher fhir)
             "GET" "/Patient/7" H).
  reflexivity.
Defined.

(* ================================================================= *)
(** * The fields are segments of the path *)

Lemma or_else_fields o p a b :
  (forall r, a = Some r -> fields_from o p r) -> fields_from o p b ->
  fields_from o p (or_else a b).
Proof. destruct a; simpl; auto. Qed.

Lemma fields_from_unset o p k :
  fields_from o p (mkInteractionInfo None k None None).
Proof. repeat split; discriminate. Qed.

Ltac segment_of H :=
  split; [norm_app; reflexivity
         | split; [auto using type_segment_no_slash, id_segment_no_slash
                  | first [left; exact H | right; simpl; eexists; reflexivity]]].

Lemma instance_path_fields o p t i kind :
  instance_path o p t i ->
  fields_from o p (mkInteractionInfo (Some t) (Some kind) (Some i) None).
Proof.
  intros (x & e & -> & Hx & Ht & Hne & Ho & Hi & He).
  split; [| split]; simpl; intros s [= <-].
  - split; [| auto]. exists x, ("/" ++ i ++ e). segment_of He.
  - split; [| auto]. exists (x ++ "/" ++ t), e. segment_of He.
Qed.

Lemma version_path_fields o p t i v kind :
  version_path o p t i v ->
  fields_from o p (mkInteractionInfo (Some t) (Some kind) (Some i) (Some v)).
Proof.
  intros (x & e & -> & Hx & Ht & Hne & Ho & Hi & Hv & He).
  split; [| split]; simpl; intros s [= <-].
  - split; [| auto].
    exists x, ("/" ++ i ++ "/_history/" ++ v ++ e). segment_of He.
  - split; [| auto].
    exists (x ++ "/" ++ t), ("/_history/" ++ v ++ e). segment_of He.
  - split; [| auto].
    exists (x ++ "/" ++ t ++ "/" ++ i ++ "/_history"), e. segment_of He.
Qed.

Lemma type_path_fields o suffix p t kind :
  suffix = EmptyString \/ (exists s', suffix = String slash s') ->
  type_path o suffix p t ->
  fields_from o p (mkInteractionInfo (Some t) (Some kind) None None).
Proof.
  intros Hsuf (x & e & -> & Hx & Ht & Hne & Ho & He).
  split; [| split]; simpl; intros s [= <-].
  split; [| auto].
  exists x, (suffix ++ e). conjs; auto using type_segment_no_slash.
  destruct Hsuf as [-> | [s' ->]]; [left; exact He | right; simpl; eauto].
Qed.

(** X14.  Every field of a result is a whole segment of the request path:
    it follows a slash, holds no slash, and is followed by a slash or by the
    end of the path (possibly a final line feed).  The resource type is in
    addition a non-empty run of [[A-z]] that the oracle accepts, and the
    resource id and version id are 1 to 64 characters of
    [[A-Za-z0-9.-]]. *)
Theorem fields_are_segments (o : string -> bool) (m p : string)
        (r : InteractionInfo) :
  classify o m p = Ok r ->
  (forall t, resource_type r = Some t ->
     whole_segment p t /\ type_segment t /\ t <> EmptyString /\ o t = true)
  /\ (forall i, resource_id r = Some i -> whole_segment p i /\ id_segment i)
  /\ (forall v, version_id r = Some v -> whole_segment p v /\ id_segment v).
Proof.
  intros H. change (fields_from o p r).
  assert (Hread : forall kind b, fields_from o p b ->
             fields_from o p
               (or_else (from_match o (re_match _READ_PATH_REGEX p) kind) b)).
  { intros kind b Hb. apply or_else_fields; [|exact Hb].
    intros r' E. apply from_match_READ in E as (t & i & Hp & ->).
    now apply instance_path_fields. }
  assert (Hvread : forall kind b, fields_from o p b ->
             fields_from o p
               (or_else (from_match o (re_match _VREAD_PATH_REGEX p) kind) b)).
  { intros kind b Hb. apply or_else_fields; [|exact Hb].
    intros r' E. apply from_match_VREAD in E as (t & i & v & Hp & ->).
    now apply version_path_fields. }
  assert (Hcreate : forall kind b, fields_from o p b ->
             fields_from o p
               (or_else (from_match o (re_match _CREATE_PATH_REGEX p) kind) b)).
  { intros kind b Hb. apply or_else_fields; [|exact Hb].
    intros r' E. apply from_match_CREATE in E as (t & Hp & ->).
    eapply type_path_fields; [|exact Hp]. auto. }
  assert (Hsearch : forall kind b, fields_from o p b ->
             fields_from o p
               (or_else (from_match o (re_match _SEARCH_TYPE_POST_PATH_REGEX p) kind)
                  b)).
  { intros kind b Hb. apply or_else_fields; [|exact Hb].
    intros r' E. apply from_match_SEARCH_POST in E as (t & Hp & ->).
    eapply type_path_fields; [|exact Hp]. right. eexists. reflexivity. }
  assert (Hempty : fields_from o p empty) by apply fields_from_unset.
  destruct (method_cases m) as [-> | [-> | [-> | [-> | [-> | Hm]]]]].
  - rewrite classify_GET in H. injection H as <-.
    destruct (re_match _METADATA_PATH_REGEX p); [apply fields_from_unset |].
    apply Hread, Hvread, Hcreate, Hempty.
  - rewrite classify_POST in H. injection H as <-.
    apply Hcreate, Hsearch, Hempty.
  - rewrite classify_PUT in H. injection H as <-. apply Hread, Hempty.
  - rewrite classify_PATCH in H. injection H as <-. apply Hread, Hempty.
  - rewrite classify_DELETE in H. injection H as <-. apply Hread, Hempty.
  - destruct Hm as (H1 & H2 & H3 & H4 & H5).
    rewrite classify_other in H by auto. injection H as <-. exact Hempty.
Qed.

Lemma fields_are_segments_witness :
  let p := "/fhir/Patient/a-1/_history/v.2" in
  let r := mkInteractionInfo (Some "Patient") (Some vread) (Some "a-1") (Some "v.2") in
  classify fhir "GET" p = Ok r
  /\ whole_segment p "Patient" /\ whole_segment p "a-1" /\ whole_segment p "v.2"
  /\ id_segment "a-1" /\ id_segment "v.2".
Proof.
  cbv zeta. split; [reflexivity |].
  destruct (fields_are_segments fhir "GET" "/fhir/Patient/a-1/_history/v.2" _ eq_refl)
    as (Ht & Hi & Hv).
  destruct (Ht "Patient" eq_refl) as (Ht1 & _).
  destruct (Hi "a-1" eq_refl) as (Hi1 & Hi2).
  destruct (Hv "v.2" eq_refl) as (Hv1 & Hv2).
  auto 10.
Defined.

(* ================================================================= *)
(** * What the oracle is asked *)

(** The names a capturing pattern submits to the oracle are whole segments
    of the path. *)
Lemma capture_is_segment R p g t :
  In R capturing_patterns ->
  re_match R p = Some g -> get "resource_type" g = Some t ->
  whole_segment p t.
Proof.
  intros HR Hg Ht. simpl in HR.
  destruct HR as [<- | [<- | [<- | [<- | []]]]].
  - apply READ_shape in Hg as (x & t' & i & e & -> & _ & Ht' & _ & He & ->).
    simpl in Ht. injection Ht as <-.
    exists x, ("/" ++ i ++ e). segment_of He.
  - apply VREAD_shape in Hg as (x & t' & i & v & e & -> & _ & Ht' & _ & _ & He & ->).
    simpl in Ht. injection Ht as <-.
    exists x, ("/" ++ i ++ "/_history/" ++ v ++ e). segment_of He.
  - apply CREATE_shape in Hg as (x & t' & e & -> & _ & Ht' & He & ->).
    simpl in Ht. injection Ht as <-.
    exists x, e. segment_of He.
  - apply SEARCH_POST_shape in Hg as (x & t' & e & -> & _ & Ht' & He & ->).
    simpl in Ht. injection Ht as <-.
    exists x, ("/_search" ++ e). segment_of He.
Qed.

Lemma from_match_same_oracle o o' R p kind :
  In R capturing_patterns ->
  (forall s, whole_segment p s -> o s = o' s) ->
  from_match o (re_match R p) kind = from_match o' (re_match R p) kind.
Proof.
  intros HR H. unfold from_match.
  destruct (re_match R p) as [g|] eqn:Hg; [|reflexivity].
  destruct (get "resource_type" g) as [[|c t]|] eqn:Ht; try reflexivity.
  rewrite (H (String c t)); [reflexivity |].
  eapply capture_is_segment; eauto.
Qed.

(** X15.  The oracle is only asked about whole segments of the path: two
    oracles that agree on every whole segment of a path classify every
    request on that path alike. *)
Theorem oracle_asked_about_segments (o o' : string -> bool) (m p : string) :
  (forall s, whole_segment p s -> o s = o' s) ->
  classify o m p = classify o' m p.
Proof.
  intros H.
  assert (Hfm : forall R kind, In R capturing_patterns ->
                  from_match o (re_match R p) kind
                  = from_match o' (re_match R p) kind)
    by (intros R kind HR; now apply from_match_same_oracle).
  destruct (method_cases m) as [-> | [-> | [-> | [-> | [-> | Hm]]]]].
  - rewrite !classify_GET.
    rewrite (Hfm _READ_PATH_REGEX), (Hfm _VREAD_PATH_REGEX),
      (Hfm _SEARCH_TYPE_GET_PATH_REGEX) by (simpl; auto).
    reflexivity.
  - rewrite !classify_POST.
    rewrite (Hfm _CREATE_PATH_REGEX), (Hfm _SEARCH_TYPE_POST_PATH_REGEX)
      by (simpl; auto).
    reflexivity.
  - rewrite !classify_PUT, (Hfm _UPDATE_PATH_REGEX) by (simpl; auto).
    reflexivity.
  - rewrite !classify_PATCH, (Hfm _PATCH_PATH_REGEX) by (simpl; auto).
    reflexivity.
  - rewrite !classify_DELETE, (Hfm _DELETE_PATH_REGEX) by (simpl; auto).
    reflexivity.
  - destruct Hm as (H1 & H2 & H3 & H4 & H5). rewrite !classify_other by auto.
    reflexivity.
Qed.

Lemma oracle_asked_about_segments_witness :
  (forall s, whole_segment "/Patient" s ->
             fhir s = oracle_of ["Patient"] s)
  /\ classify fhir "GET" "/Patient" = classify (oracle_of ["Patient"]) "GET" "/Patient".
Proof.
  assert (H : forall s, whole_segment "/Patient" s ->
                        fhir s = oracle_of ["Patient"] s).
  { intros s (a & b & Hp & Hs & _).
    assert (Hp' : EmptyString ++ "/" ++ "Patient" = a ++ "/" ++ (s ++ b))
      by exact Hp.
    destruct a as [|c a].
    - simpl in Hp'. injection Hp' as Hp'.
      destruct s as [|c1 s]; [reflexivity |].
      destruct (String.eqb_spec (String c1 s) "Observation") as [E | E].
      + rewrite E in Hp'. simpl in Hp'. discriminate Hp'.
      + unfold fhir, oracle_of. cbn [existsb].
        apply String.eqb_neq in E. rewrite E. reflexivity.
    - simpl in Hp'. injection Hp' as _ Hp'.
      exfalso. clear -Hp'.
      assert (Hc : count_char slash "Patient" = count_char slash (a ++ "/" ++ s ++ b))
        by (f_equal; exact Hp').
      rewrite count_char_app in Hc. simpl in Hc. lia. }
  split; [exact H |].
  exact (oracle_asked_about_segments fhir (oracle_of ["Patient"]) "GET" "/Patient" H).
Defined.
